(** * bluemix/http/transport.go: the trace-logging RoundTripper

    A shallow embedding of [TraceLoggingTransport] and of the library
    functions it calls, with the properties of the decorator proved
    about it.

    Definitions come first:

    - [Strings]: the functions of Go's [strings] package that the source
      uses ([strings.Contains], through [strings.HasPrefix]).
    - [Env] and [Printer]: everything that transport.go imports (the
      clock, [httputil], the wrapped [http.RoundTripper], [trace],
      [terminal], [i18n]) as an interface, and [trace.Printer], the
      interface of the log sink.
    - [NewTraceLoggingTransport], [RoundTrip], [dumpRequest] and
      [dumpResponse], statement by statement, in a state monad over the
      world and the sink.
    - [Float64] and [Fmt]: the arithmetic of [float64] and the verb
      [%.0f], for the elapsed time.
    - [GoHTTP]: an instance of [Env] that follows the Go sources of
      [net/http/httputil] for the way [DumpRequest] and [DumpResponse]
      treat the body streams, and those of [time] for the clock.
    - [Trace]: the redaction function [trace.Sanitize].
    - [Example]: a concrete environment on which the model runs.

    The properties follow: those of the control flow of the decorator,
    which hold for every environment; those that rest on Go's dump
    functions; those of the redaction; and the model run on examples. *)

From Stdlib Require Import ZArith String Ascii List Bool Lia Floats.
From Stdlib Require Import QArith Qround Qpower Qreduction Lqa.
From Stdlib Require Import DecimalString HexadecimalString.
From stdpp Require Import base tactics option functions gmap strings.

Import ListNotations.
Local Open Scope string_scope.
Local Open Scope list_scope.

(** ** Go's [strings] package *)

Module Strings.

(** [strings.HasPrefix(s, prefix)]:
    [len(s) >= len(prefix) && s[:len(prefix)] == prefix]. *)
Fixpoint HasPrefix (s prefix : string) {struct prefix} : bool :=
  match prefix with
  | EmptyString => true
  | String p prefix' =>
      match s with
      | EmptyString => false
      | String c s' => if Ascii.eqb c p then HasPrefix s' prefix' else false
      end
  end.

(** [strings.Contains(s, substr)]: [Index(s, substr) >= 0], that is,
    [substr] is a prefix of some suffix of [s]. *)
Fixpoint Contains (s substr : string) : bool :=
  HasPrefix s substr ||
  match s with
  | EmptyString => false
  | String _ s' => Contains s' substr
  end.

End Strings.

(** ** [float64] and the verb [%.0f]

    Go's [float64] is IEEE 754 binary64, and its conversions and
    operations round to nearest, ties to even.  A value is represented
    by the rational number it denotes, and an operation by the exact
    result rounded to 53 significant bits.  The values that the elapsed
    time goes through are zero or lie between 1e-9 and 1e13 in absolute
    value: no infinity, no NaN, no subnormal number and no negative zero
    arises, and none is represented.  [Machine] below has the same
    computation on the floating-point numbers of the processor, to
    compare. *)

Module Float64.

Definition float64 : Type := Q.

(** The integer nearest to [q], the even one of the two when [q] lies
    half-way. *)
Definition roundEven (q : Q) : Z :=
  let f := Qfloor q in
  match Qcompare (q - inject_Z f) (1 # 2) with
  | Lt => f
  | Gt => (f + 1)%Z
  | Eq => if Z.even f then f else (f + 1)%Z
  end.

(** The binary exponent of [q > 0]: the [e] with [2^e <= q < 2^(e+1)]. *)
Definition exponent (q : Q) : Z :=
  let e := (Z.log2 (Qnum q) - Z.log2 (Zpos (Qden q)))%Z in
  if Qle_bool (2 ^ e) q then e else (e - 1)%Z.

(** [q > 0] rounded to 53 significant bits: with [e] its exponent, the
    multiple of [2^(e-52)] nearest to it. *)
Definition roundPos (q : Q) : Q :=
  let e := exponent q in
  Qred (inject_Z (roundEven (q * 2 ^ (52 - e))) * 2 ^ (e - 52)).

(** The [float64] nearest to [q]. *)
Definition round (q : Q) : float64 :=
  match Qcompare q 0 with
  | Eq => 0%Q
  | Gt => roundPos q
  | Lt => Qred (- roundPos (- q))
  end.

(** [x + y], [x * y] and [x / y] on [float64] *)
Definition add (x y : float64) : float64 := round (x + y)%Q.
Definition mul (x y : float64) : float64 := round (x * y)%Q.
Definition div (x y : float64) : float64 := round (x / y)%Q.

(** The unit round-off of [float64], [2^-53]. *)
Definition unitRoundoff : Q := 1 # 9007199254740992.

End Float64.

(** Go's [fmt] package, as far as the format of [dumpResponse] needs
    it. *)
Module Fmt.

(** An integer in decimal. *)
Definition decimal (n : Z) : string :=
  DecimalString.NilZero.string_of_int (Z.to_int n).

(** What the verb [%.0f] prints for a [float64]: the value rounded to
    an integer, ties to even, in decimal and without a decimal point; a
    negative value that rounds to zero is printed as [-0]. *)
Definition f0 (x : Float64.float64) : string :=
  if negb (Qle_bool 0 x) && (Float64.roundEven x =? 0)%Z then "-0"
  else decimal (Float64.roundEven x).

End Fmt.

(** ** The imports of transport.go, as an interface *)

(** [time.Duration] is an [int64] count of nanoseconds. *)
Definition Duration := Z.

(** [time.RFC3339] *)
Definition RFC3339 : string := "2006-01-02T15:04:05Z07:00".

(** Everything the decorator consumes.  [World] is the state of the
    process and of the network outside the log sink: the clock, the
    objects behind the [*http.Request] and [*http.Response] pointers
    (their body streams included) and whatever the wrapped transport
    talks to.  [Request] and [Response] are the pointers themselves, so
    that passing a request on is passing the same handle; what a library
    call does to the object behind it is an effect on the [World].
    A Go [error] is an [option]: [None] is [nil].  A Go function with
    results [(x, err)] returns the pair.  The calls are total: a panic
    of a library function is not represented. *)
Class Env := {
  World : Type;
  Request : Type;
  Response : Type;
  error : Type;
  Time : Type;
  float64 : Type;
  (** [time.Now()] *)
  time_Now : World -> Time * World;
  (** [t.Format(layout)] *)
  time_Format : Time -> string -> string;
  (** [t.Sub(u)] *)
  time_Sub : Time -> Time -> Duration;
  (** [d.Seconds()] *)
  Duration_Seconds : Duration -> float64;
  (** [x * 1000] on [float64] *)
  float64_mul1000 : float64 -> float64;
  (** [err.Error()] *)
  error_Error : error -> string;
  (** [req.Header.Get(key)] *)
  Header_Get : Request -> string -> World -> string;
  (** [httputil.DumpRequest(req, body)] *)
  DumpRequest : Request -> bool -> World -> (string * option error) * World;
  (** [httputil.DumpResponse(resp, body)] *)
  DumpResponse : Response -> bool -> World -> (string * option error) * World;
  (** [http.DefaultTransport.RoundTrip] *)
  DefaultTransport : Request -> World -> (Response * option error) * World;
  (** [i18n.T(translationID, args)] *)
  T : string -> list (string * string) -> string;
  (** [terminal.HeaderColor] *)
  HeaderColor : string -> string;
  (** [trace.Sanitize] *)
  Sanitize : string -> string
}.

(** [http.RoundTripper]: an interface with the one method [RoundTrip]. *)
Definition RoundTripper `{Env} : Type :=
  Request -> World -> (Response * option error) * World.

(** The arguments the source hands to the printer: strings everywhere,
    and one [float64] under the verb [%.0f]. *)
Inductive Arg `{Env} : Type :=
| ArgString (s : string)
| ArgFloat64 (x : float64).

(** [trace.Printer], the interface of [trace.Logger]; [Sink] is the state
    of the sink behind it. *)
Class Printer `{Env} (Sink : Type) := {
  Printf : string -> list Arg -> Sink -> Sink;
  Println : list Arg -> Sink -> Sink
}.

(** One call received by a printer. *)
Inductive Call `{Env} : Type :=
| CallPrintf (format : string) (args : list Arg)
| CallPrintln (args : list Arg).

(** A printer that records the calls it receives, oldest first. *)
#[export] Instance RecordingPrinter `{Env} : Printer (list Call) := {
  Printf format args log := log ++ [CallPrintf format args];
  Println args log := log ++ [CallPrintln args]
}.

(** The printer [trace.NewLogger] returns when tracing is off: it
    discards everything. *)
#[export] Instance NullPrinter `{Env} : Printer unit := {
  Printf _ _ s := s;
  Println _ s := s
}.

(** ** The decorator *)

Section TraceLoggingTransport.
Context `{E : Env} {Sink : Type} `{P : !Printer Sink}.

(** Go statements act on the world and on the log sink. *)
Definition M (A : Type) : Type := World * Sink -> A * (World * Sink).

Definition ret {A} (a : A) : M A := fun s => (a, s).

Definition bind {A B} (m : M A) (k : A -> M B) : M B :=
  fun s => let '(a, s') := m s in k a s'.

(** A library call, which does not see the sink. *)
Definition call {A} (f : World -> A * World) : M A :=
  fun '(w, l) => let '(a, w') := f w in (a, (w', l)).

(** A read of the world. *)
Definition read {A} (f : World -> A) : M A :=
  fun '(w, l) => (f w, (w, l)).

(** [trace.Logger.Printf] and [trace.Logger.Println] *)
Definition Logger_Printf (format : string) (args : list Arg) : M unit :=
  fun '(w, l) => (tt, (w, Printf format args l)).

Definition Logger_Println (args : list Arg) : M unit :=
  fun '(w, l) => (tt, (w, Println args l)).

Notation "'let*' p ':=' m 'in' k" := (bind m (fun p => k))
  (at level 10, p pattern, m at level 100, k at level 200).
Notation "m ;;; k" := (bind m (fun _ => k))
  (at level 100, right associativity).

Record TraceLoggingTransport := { rt : RoundTripper }.

Definition NewTraceLoggingTransport (rt : option RoundTripper)
  : TraceLoggingTransport :=
  match rt with
  | None => {| rt := DefaultTransport |}
  | Some rt => {| rt := rt |}
  end.

Definition request_error_template : string :=
  "An error occurred while dumping request:
{{.Error}}
".

Definition response_error_template : string :=
  "An error occurred while dumping response:
{{.Error}}
".

(** ["\n%s [%s]\n%s\n"] *)
Definition request_format : string := "
%s [%s]
%s
".

(** ["\n%s [%s] %s %.0fms\n%s\n"] *)
Definition response_format : string := "
%s [%s] %s %.0fms
%s
".

Definition multipart_marker : string := "[MULTIPART/FORM-DATA CONTENT HIDDEN]".

Definition dumpRequest (r : TraceLoggingTransport) (req : Request)
    (start : Time) : M unit :=
  let* contentType := read (Header_Get req "Content-Type") in
  let shouldDisplayBody :=
    negb (Strings.Contains contentType "multipart/form-data") in
  let* (dumpedRequest, err) := call (DumpRequest req shouldDisplayBody) in
  match err with
  | Some err =>
      Logger_Printf
        (T request_error_template [("Error", error_Error err)]) []
  | None =>
      Logger_Printf request_format
        [ArgString (HeaderColor (T "REQUEST:" []));
         ArgString (time_Format start RFC3339);
         ArgString (Sanitize dumpedRequest)] ;;;
      if negb shouldDisplayBody
      then Logger_Println [ArgString multipart_marker]
      else ret tt
  end.

Definition dumpResponse (r : TraceLoggingTransport) (res : Response)
    (start : Time) : M unit :=
  let* end_ := call time_Now in
  let* (dumpedResponse, err) := call (DumpResponse res true) in
  match err with
  | Some err =>
      Logger_Printf
        (T response_error_template [("Error", error_Error err)]) []
  | None =>
      Logger_Printf response_format
        [ArgString (HeaderColor (T "RESPONSE:" []));
         ArgString (time_Format end_ RFC3339);
         ArgString (HeaderColor (T "Elapsed:" []));
         ArgFloat64 (float64_mul1000 (Duration_Seconds (time_Sub end_ start)));
         ArgString (Sanitize dumpedResponse)]
  end.

Definition RoundTrip (r : TraceLoggingTransport) (req : Request)
  : M (Response * option error) :=
  let* start := call time_Now in
  dumpRequest r req start ;;;
  let* (resp, err) := call (rt r req) in
  match err with
  | Some _ => ret (resp, err)
  | None =>
      dumpResponse r resp start ;;;
      ret (resp, err)
  end.

End TraceLoggingTransport.


(** ** Go's [net/http] and [net/http/httputil], as far as the dumps go

    The dump functions are not part of the repository.  What the
    decorator relies on is the way they treat the body streams, and this
    part follows their Go sources statement by statement
    ([httputil/dump.go]: [drainBody], [DumpRequest], [DumpResponse]).
    The text of the request line and of the header block and the wire
    form of a response ([Response.Write]) stay parameters. *)

Module GoHTTP.

(** An error value, represented by its message. *)
Definition error : Type := string.

(** An [io.ReadCloser] that can be read once: the bytes not yet read,
    the error (if any) that [Read] reports instead of [io.EOF] once they
    are exhausted, and the error (if any) that [Close] reports. *)
Record ReadCloser := {
  unread : string;
  readErr : option error;
  closeErr : option error
}.

(** [io.NopCloser(bytes.NewReader(data))], and [io.NopCloser(&buf)] for a
    buffer holding [data]. *)
Definition bytesReader (data : string) : ReadCloser :=
  {| unread := data; readErr := None; closeErr := None |}.

(** Reading a stream to its end ([buf.ReadFrom(b)], [io.Copy(dst, b)],
    [io.ReadAll(b)]): the bytes obtained, the error other than [io.EOF]
    that ended the reading, and the stream left behind. *)
Definition ReadFrom (b : ReadCloser) : (string * option error) * ReadCloser :=
  ((unread b, readErr b),
   {| unread := ""; readErr := readErr b; closeErr := closeErr b |}).

(** [b.Close()] *)
Definition Close (b : ReadCloser) : option error := closeErr b.

(** The [Body] field of a request or response: [nil], the sentinel
    [http.NoBody], or some other reader. *)
Inductive Body : Type :=
| nilBody
| NoBody
| Stream (b : ReadCloser).

Definition isNil (b : Body) : bool :=
  match b with nilBody => true | _ => false end.

(** What a reader of the body gets: [io.ReadAll(body)]. *)
Definition ReadAll (b : Body) : string * option error :=
  match b with
  | nilBody | NoBody => ("", None)
  | Stream s => fst (ReadFrom s)
  end.

(** [httputil.drainBody]:
<<
  func drainBody(b io.ReadCloser) (r1, r2 io.ReadCloser, err error) {
      if b == nil || b == http.NoBody {
          return http.NoBody, http.NoBody, nil
      }
      var buf bytes.Buffer
      if _, err = buf.ReadFrom(b); err != nil {
          return nil, b, err
      }
      if err = b.Close(); err != nil {
          return nil, b, err
      }
      return io.NopCloser(&buf), io.NopCloser(bytes.NewReader(buf.Bytes())), nil
  }
>> *)
Definition drainBody (b : Body) : Body * Body * option error :=
  match b with
  | nilBody | NoBody => (NoBody, NoBody, None)
  | Stream s =>
      let '((buf, err), s') := ReadFrom s in
      match err with
      | Some err => (nilBody, Stream s', Some err)
      | None =>
          match Close s' with
          | Some err => (nilBody, Stream s', Some err)
          | None => (Stream (bytesReader buf), Stream (bytesReader buf), None)
          end
      end
  end.

(** [url.URL], reduced to what the dump reads of it. *)
Record URL := {
  URL_Host : string;
  (** the result of [u.RequestURI()] *)
  URL_RequestURI : string
}.

(** [http.Request] *)
Record RequestObj := {
  Method : string;
  URL_ : URL;
  ProtoMajor : nat;
  ProtoMinor : nat;
  Header : gmap string (list string);
  Body_ : Body;
  TransferEncoding : list string;
  Host : string;
  RequestURI : string
}.

Definition setBody (b : Body) (r : RequestObj) : RequestObj :=
  {| Method := Method r; URL_ := URL_ r; ProtoMajor := ProtoMajor r;
     ProtoMinor := ProtoMinor r; Header := Header r; Body_ := b;
     TransferEncoding := TransferEncoding r; Host := Host r;
     RequestURI := RequestURI r |}.

(** [http.Response] *)
Record ResponseObj := {
  Status : string;
  StatusCode : nat;
  RespProtoMajor : nat;
  RespProtoMinor : nat;
  RespHeader : gmap string (list string);
  RespBody : Body;
  ContentLength : Z;
  RespTransferEncoding : list string
}.

Definition setRespBody (b : Body) (cl : Z) (r : ResponseObj) : ResponseObj :=
  {| Status := Status r; StatusCode := StatusCode r;
     RespProtoMajor := RespProtoMajor r; RespProtoMinor := RespProtoMinor r;
     RespHeader := RespHeader r; RespBody := b; ContentLength := cl;
     RespTransferEncoding := RespTransferEncoding r |}.

(** [time.Time] as [time.Now()] returns it: a wall-clock reading and a
    reading of the monotonic clock, both in nanoseconds. *)
Record Time := {
  wall : Z;
  mono : Z
}.

(** The state of the process: the objects behind the pointers, the
    clock, and the bytes the transport has put on the wire.  A pointer is
    a key of the store; a key that is not allocated stands for a pointer
    that cannot be dereferenced. *)
Record World := {
  requests : gmap nat RequestObj;
  responses : gmap nat ResponseObj;
  clock : Time;
  wire : list string
}.

Definition setRequests (m : gmap nat RequestObj) (w : World) : World :=
  {| requests := m; responses := responses w; clock := clock w;
     wire := wire w |}.

Definition setResponses (m : gmap nat ResponseObj) (w : World) : World :=
  {| requests := requests w; responses := m; clock := clock w;
     wire := wire w |}.

(** [time.Now()] reads the clock.  Time passes as an effect of the calls
    that take time.  In this model the wrapped transport is the only
    one of them: the dump functions below leave the clock where it is,
    although in Go they take time as well.  What is proved of the
    elapsed time is therefore stated on the two readings, the one taken
    first thing in [RoundTrip] and the one taken after the transport has
    returned, and not on the time that the transport alone has taken. *)
Definition Now (w : World) : Time * World := (clock w, w).

Definition int64_min : Z := (- 2 ^ 63)%Z.
Definition int64_max : Z := (2 ^ 63 - 1)%Z.

(** Two's-complement wrap-around of [int64] arithmetic. *)
Definition int64 (x : Z) : Z := ((x + 2 ^ 63) mod 2 ^ 64 - 2 ^ 63)%Z.

(** [t.Sub(u)] for two times that carry a monotonic reading
    ([time.subMono]): the difference, saturated at the ends of
    [Duration]:
<<
  d := Duration(t - u)
  if d < 0 && t > u { return maxDuration }
  if d > 0 && t < u { return minDuration }
  return d
>> *)
Definition Sub (t u : Time) : Duration :=
  let d := int64 (mono t - mono u)%Z in
  if (d <? 0)%Z && (mono u <? mono t)%Z then int64_max
  else if (0 <? d)%Z && (mono t <? mono u)%Z then int64_min
  else d.

(** [float64(x)] for an [int64] *)
Definition float64_of_int64 (x : Z) : Float64.float64 :=
  Float64.round (inject_Z x).

(** [d.Seconds()]:
<<
  sec := d / Second
  nsec := d % Second
  return float64(sec) + float64(nsec)/1e9
>> *)
Definition Seconds (d : Duration) : Float64.float64 :=
  let sec := Z.quot d 1000000000%Z in
  let nsec := Z.rem d 1000000000%Z in
  Float64.add (float64_of_int64 sec)
    (Float64.div (float64_of_int64 nsec) (float64_of_int64 1000000000%Z)).

(** [x * 1000]: the constant is converted to [float64]. *)
Definition mul1000 (x : Float64.float64) : Float64.float64 :=
  Float64.mul x (float64_of_int64 1000%Z).

(** Thirty days, in nanoseconds. *)
Definition thirtyDays : Duration := 2592000000000000%Z.

(** [h.Get(key)] for a key in canonical form, as ["Content-Type"] is:
    the first value stored under the key, or [""]. *)
Definition Get (h : gmap string (list string)) (key : string) : string :=
  match h !! key with
  | Some (v :: _) => v
  | _ => ""
  end.

Definition CRLF : string := String (ascii_of_nat 13) (String (ascii_of_nat 10) "").

(** [errNoBody], the error of [failureToReadBody.Read]. *)
Definition errNoBody : error := "sentinel error value".

(** [emptyBody] and [failureToReadBody{}] of dump.go. *)
Definition emptyBody : Body := Stream (bytesReader "").

Definition failureToReadBody : Body :=
  Stream {| unread := ""; readErr := Some errNoBody; closeErr := None |}.

(** The result given to a call that dereferences a pointer that is not
    allocated.  Go panics there; the model has no panics, and every
    statement about the dump functions is about allocated pointers. *)
Definition errNilPointer : error :=
  "invalid memory address or nil pointer dereference".

(** A body that [drainBody] can drain: its [Read] reaches [io.EOF] and
    its [Close] succeeds. *)
Definition drainable (b : Body) : bool :=
  match b with
  | Stream s =>
      match readErr s, closeErr s with
      | None, None => true
      | _, _ => false
      end
  | _ => true
  end.

(** The error with which [drainBody] fails on a stream: the error of
    [buf.ReadFrom(b)] if there is one, otherwise the error of
    [b.Close()]. *)
Definition drainError (s : ReadCloser) : option error :=
  match readErr s with
  | Some e => Some e
  | None => closeErr s
  end.

(** The body that [DumpResponse] hands to [resp.Write] when it displays
    the body: [emptyBody] for a nil body
    ([else if resp.Body == nil { resp.Body = emptyBody }]), otherwise
    the copy that [drainBody] made. *)
Definition writtenBody (b : Body) : Body :=
  if isNil b then emptyBody else b.

(** [len(req.TransferEncoding) > 0 && req.TransferEncoding[0] == "chunked"] *)
Definition isChunked (r : RequestObj) : bool :=
  match TransferEncoding r with
  | te :: _ => String.eqb te "chunked"
  | [] => false
  end.

Section Dump.

(** The request line, the [Host] and [Transfer-Encoding] lines and the
    header block ([req.Header.WriteSubset]) that [DumpRequest] writes
    before the blank line.  None of the statements that write them reads
    [req.Body]: the model hands them the request without its body. *)
Variable requestHead : RequestObj -> string.

(** What a chunked writer puts out for a payload that [io.Copy] writes
    to it, up to and including its [Close]. *)
Variable chunkedWire : string -> string.

(** [resp.Write(&b)]: the bytes written to the buffer and the error. *)
Variable Response_Write : ResponseObj -> string * option error.

(** [httputil.DumpRequest]:
<<
  func DumpRequest(req *http.Request, body bool) ([]byte, error) {
      var err error
      save := req.Body
      if !body || req.Body == nil {
          req.Body = nil
      } else {
          save, req.Body, err = drainBody(req.Body)
          if err != nil {
              return nil, err
          }
      }
      var b bytes.Buffer
      ... request line, Host, Transfer-Encoding, req.Header.WriteSubset ...
      chunked := len(req.TransferEncoding) > 0 && req.TransferEncoding[0] == "chunked"
      io.WriteString(&b, "\r\n")
      if req.Body != nil {
          var dest io.Writer = &b
          if chunked {
              dest = NewChunkedWriter(dest)
          }
          _, err = io.Copy(dest, req.Body)
          if chunked {
              dest.(io.Closer).Close()
              io.WriteString(&b, "\r\n")
          }
      }
      req.Body = save
      if err != nil {
          return nil, err
      }
      return b.Bytes(), nil
  }
>> *)
Definition DumpRequest (req : nat) (body : bool) (w : World)
  : (string * option error) * World :=
  match requests w !! req with
  | None => (("", Some errNilPointer), w)
  | Some r =>
      let '(save, reqBody, err) :=
        if negb body || isNil (Body_ r) then (Body_ r, nilBody, None)
        else drainBody (Body_ r) in
      match err with
      | Some err =>
          (("", Some err),
           setRequests (<[req := setBody reqBody r]> (requests w)) w)
      | None =>
          let b := requestHead (setBody nilBody r) +:+ CRLF in
          let chunked := isChunked r in
          let '(b, err) :=
            if isNil reqBody then (b, None)
            else
              let '(data, err) := ReadAll reqBody in
              if chunked then (b +:+ chunkedWire data +:+ CRLF, err)
              else (b +:+ data, err) in
          let w' := setRequests (<[req := setBody save r]> (requests w)) w in
          match err with
          | Some err => (("", Some err), w')
          | None => ((b, None), w')
          end
      end
  end.

(** [httputil.DumpResponse]:
<<
  func DumpResponse(resp *http.Response, body bool) ([]byte, error) {
      var b bytes.Buffer
      var err error
      save := resp.Body
      savecl := resp.ContentLength
      if !body {
          if resp.ContentLength == 0 {
              resp.Body = emptyBody
          } else {
              resp.Body = failureToReadBody{}
          }
      } else if resp.Body == nil {
          resp.Body = emptyBody
      } else {
          save, resp.Body, err = drainBody(resp.Body)
          if err != nil {
              return nil, err
          }
      }
      err = resp.Write(&b)
      if err == errNoBody {
          err = nil
      }
      resp.Body = save
      resp.ContentLength = savecl
      if err != nil {
          return nil, err
      }
      return b.Bytes(), nil
  }
>> *)
Definition DumpResponse (resp : nat) (body : bool) (w : World)
  : (string * option error) * World :=
  match responses w !! resp with
  | None => (("", Some errNilPointer), w)
  | Some r =>
      let savecl := ContentLength r in
      let '(save, respBody, err) :=
        if negb body then
          (RespBody r,
           if (ContentLength r =? 0)%Z then emptyBody else failureToReadBody,
           None)
        else if isNil (RespBody r) then (RespBody r, emptyBody, None)
        else drainBody (RespBody r) in
      match err with
      | Some err =>
          (("", Some err),
           setResponses
             (<[resp := setRespBody respBody (ContentLength r) r]> (responses w)) w)
      | None =>
          let '(b, err) := Response_Write (setRespBody respBody (ContentLength r) r) in
          let err :=
            match err with
            | Some e => if String.eqb e errNoBody then None else Some e
            | None => None
            end in
          let w' :=
            setResponses (<[resp := setRespBody save savecl r]> (responses w)) w in
          match err with
          | Some err => (("", Some err), w')
          | None => ((b, None), w')
          end
      end
  end.

(** The serialized body of a request: its bytes as they stand in a
    dump that displays the body. *)
Definition bodyWire (r : RequestObj) : string :=
  if isNil (Body_ r) then ""
  else
    let data := fst (ReadAll (Body_ r)) in
    if isChunked r then chunkedWire data +:+ CRLF else data.

(** The text of a dump of the request [r]: the head, the blank line,
    and the serialized body if the dump displays it. *)
Definition requestText (r : RequestObj) (body : bool) : string :=
  (requestHead (setBody nilBody r) +:+ CRLF) +:+
  (if body then bodyWire r else "").

(** The rest of what transport.go imports. *)
Variable defaultTransport : nat -> World -> (nat * option error) * World.
Variable Format : Time -> string -> string.
Variable T : string -> list (string * string) -> string.
Variable HeaderColor : string -> string.
Variable Sanitize : string -> string.

Definition Header_Get (req : nat) (key : string) (w : World) : string :=
  match requests w !! req with
  | Some r => Get (Header r) key
  | None => ""
  end.

#[export] Instance env : Env :=
  Build_Env World nat nat error Time Float64.float64
    Now Format Sub Seconds mul1000 (fun e => e)
    Header_Get DumpRequest DumpResponse defaultTransport
    T HeaderColor Sanitize.

End Dump.

End GoHTTP.

(** ** The same arithmetic on the floating-point numbers of the processor *)

Module Machine.

(** [float64(x)] for an integer below 2^63 in absolute value, as the
    seconds and the nanoseconds of a duration are. *)
Definition float64_of_int64 (x : Z) : PrimFloat.float :=
  if (x <? 0)%Z then PrimFloat.opp (PrimFloat.of_uint63 (Uint63.of_Z (- x)%Z))
  else PrimFloat.of_uint63 (Uint63.of_Z x).

Definition Seconds (d : Duration) : PrimFloat.float :=
  let sec := Z.quot d 1000000000%Z in
  let nsec := Z.rem d 1000000000%Z in
  PrimFloat.add (float64_of_int64 sec)
    (PrimFloat.div (float64_of_int64 nsec) (float64_of_int64 1000000000%Z)).

Definition mul1000 (x : PrimFloat.float) : PrimFloat.float :=
  PrimFloat.mul x (float64_of_int64 1000%Z).

(** The rational number that a finite floating-point number denotes. *)
Definition value (x : PrimFloat.float) : option Q :=
  match FloatOps.Prim2SF x with
  | SpecFloat.S754_zero _ => Some 0%Q
  | SpecFloat.S754_finite s m e =>
      Some (Qred ((if s then - 1 else 1) * inject_Z (Zpos m) * 2 ^ e)%Q)
  | _ => None
  end.

(** Durations on which the two computations are compared: around half
    a millisecond, around a second, days, and the ends of [int64]. *)
Definition samples : list Duration :=
  [0; 1; 499999; 500000; 500001; 1234567; 1500000; 2500000; 999999999;
   1000000000; 1000000001; 59999999999; 86400000000000; 2592000000000000;
   4503599627370497; 8632277188500001; 9007199254740993;
   9223372036854775807; -1; -499999; -1234567; -1000000000;
   -9223372036854775808]%Z.

End Machine.

(** ** The redaction function *)

Module Trace.

(** [privateDataPlaceholder] *)
Definition privateDataPlaceholder : string := "[PRIVATE DATA HIDDEN]".

(** The words between the brackets of the placeholder. *)
Definition placeholderWords : string := "PRIVATE DATA HIDDEN".

Section Sanitize.

(** The redaction policy: the sensitive substrings (credential values,
    tokens) that are known when the dump is written. *)
Variable sensitive : list string.

(** Modelled from the spec: the matches that start at the first
    character of the text [s], by the length of the longest of them: the
    greatest length of a sensitive substring of the policy that [s]
    starts with, and 0 if there is none. *)
Definition longestMatch (s : string) : nat :=
  fold_right
    (fun p m => if Strings.HasPrefix s p then Nat.max (String.length p) m else m)
    0 sensitive.

(** Modelled from the spec: the scan of [trace.Sanitize], once through
    the text from left to right; each match is replaced by the
    placeholder, whole.  [cover] counts the characters from the current
    one on that belong to a match found earlier: they are dropped, and a
    match that starts among them is dropped with them, to its end.  So
    no character of any match is written, matches that overlap are
    replaced by one placeholder, and matches that merely follow one
    another by one placeholder each. *)
Fixpoint redact (cover : nat) (s : string) : string :=
  match s with
  | EmptyString => EmptyString
  | String c s' =>
      let m := longestMatch s in
      match cover with
      | S k => redact (Nat.max k (m - 1)) s'
      | O =>
          match m with
          | O => String c (redact 0 s')
          | S k => privateDataPlaceholder +:+ redact k s'
          end
      end
  end.

(** Modelled from the spec: [trace.Sanitize], of the package
    bluemix/trace of this repository, is not among the sources.  The
    specification has it "scan the textual dump for known sensitive
    fields/patterns (e.g., credential values, tokens) and replace each
    match with a fixed placeholder string [PRIVATE DATA HIDDEN]", and
    leaves the set of patterns to the policy: here the policy is the
    list [sensitive], and a match is an occurrence of one of its
    members that is not empty. *)
Definition Sanitize (input : string) : string := redact 0 input.

End Sanitize.

(** A character that is not a square bracket. *)
Definition notBracket (c : ascii) : bool :=
  negb (Ascii.eqb c "[") && negb (Ascii.eqb c "]").

Fixpoint forallb_string (f : ascii -> bool) (s : string) : bool :=
  match s with
  | EmptyString => true
  | String c s' => f c && forallb_string f s'
  end.

(** A sensitive substring that cannot be mistaken for a part of the
    placeholder: it is not empty, has no square bracket, and does not
    occur in the words of the placeholder. *)
Definition plain (p : string) : bool :=
  negb (String.eqb p "") && forallb_string notBracket p &&
  negb (Strings.Contains placeholderWords p).

End Trace.

(** ** Reading the recorded calls *)

Section Log.
Context `{E : Env}.

(** A request trace line: the format of [dumpRequest] with its three
    arguments. *)
Definition isRequestTrace (c : Call) : bool :=
  match c with
  | CallPrintf format [_; _; _] => String.eqb format request_format
  | _ => false
  end.

(** A response trace line: the format of [dumpResponse] with its five
    arguments. *)
Definition isResponseTrace (c : Call) : bool :=
  match c with
  | CallPrintf format [_; _; _; _; _] => String.eqb format response_format
  | _ => false
  end.

(** The marker line that stands for a hidden multipart body. *)
Definition isMultipartMarker (c : Call) : bool :=
  match c with
  | CallPrintln [ArgString s] => String.eqb s multipart_marker
  | _ => false
  end.

(** The dump text of a recorded call: the last argument of a request or
    response trace line. *)
Definition dumpText (c : Call) : option string :=
  match c with
  | CallPrintf _ [_; _; ArgString s] =>
      if isRequestTrace c then Some s else None
  | CallPrintf _ [_; _; _; _; ArgString s] =>
      if isResponseTrace c then Some s else None
  | _ => None
  end.

(** The dump texts of a log, oldest first. *)
Definition dumpTexts (log : list Call) : list string :=
  omap dumpText log.

(** The elapsed time of a response trace line, as handed to [%.0f]. *)
Definition elapsedArg (c : Call) : option float64 :=
  match c with
  | CallPrintf _ [_; _; _; ArgFloat64 x; _] =>
      if isResponseTrace c then Some x else None
  | _ => None
  end.

End Log.

(** ** The decorator run on an initial state *)

Section Run.
Context `{E : Env} {Sink : Type} `{P : !Printer Sink}.

(** The state in which [RoundTrip] calls the wrapped transport: after
    [time.Now()] and [dumpRequest]. *)
Definition beforeTransport (r : TraceLoggingTransport) (req : Request)
    (s : World * Sink) : World * Sink :=
  let '(start, w1) := time_Now (fst s) in
  snd (dumpRequest r req start (w1, snd s)).

(** The call of the wrapped transport that [RoundTrip] makes. *)
Definition transportCall (r : TraceLoggingTransport) (req : Request)
    (s : World * Sink) : (Response * option error) * World :=
  rt r req (fst (beforeTransport r req s)).

End Run.

Section RunRecorded.
Context `{E : Env}.

(** The calls that [dumpRequest] makes to the printer. *)
Definition requestLog (r : TraceLoggingTransport) (req : Request) (w : World)
  : list Call :=
  snd (beforeTransport r req (w, [])).

(** [req.Header.Get("Content-Type")] names multipart form data. *)
Definition isMultipart (req : Request) (w : World) : bool :=
  Strings.Contains (Header_Get req "Content-Type" w) "multipart/form-data".

(** The calls that [RoundTrip] makes to the printer. *)
Definition roundTripLog (r : TraceLoggingTransport) (req : Request) (w : World)
  : list Call :=
  snd (snd (RoundTrip r req (w, []))).

(** The dumps that one call of [RoundTrip] obtains, as the dump
    functions return them: the bytes of [httputil.DumpRequest] when it
    returns no error, then the bytes of [httputil.DumpResponse] when the
    transport and it return no error. *)
Definition rawDumps (r : TraceLoggingTransport) (req : Request) (w : World)
  : list string :=
  let w1 := snd (time_Now w) in
  let '((dumped, err), w2) := DumpRequest req (negb (isMultipart req w1)) w1 in
  let '((resp, rerr), w3) := rt r req w2 in
  match err with
  | None => [dumped]
  | Some _ => []
  end ++
  match rerr with
  | Some _ => []
  | None =>
      let '((dumped', err'), _) := DumpResponse resp true (snd (time_Now w3)) in
      match err' with
      | None => [dumped']
      | Some _ => []
      end
  end.

End RunRecorded.

(** ** A concrete environment

    Stand-ins for the parameters of [GoHTTP], and a wrapped transport,
    on which the model runs. *)

Module Example.
Import GoHTTP.

(** The header block, one line for each value. *)
Definition headerLines (h : gmap string (list string)) : string :=
  String.concat ""
    (List.map (fun kv : string * list string =>
       String.concat ""
         (List.map (fun v => fst kv +:+ ": " +:+ v +:+ CRLF) (snd kv)))
       (map_to_list h)).

Definition requestHead (r : RequestObj) : string :=
  Method r +:+ " " +:+ URL_RequestURI (URL_ r) +:+ " HTTP/1.1" +:+ CRLF +:+
  "Host: " +:+ Host r +:+ CRLF +:+ headerLines (Header r).

(** One chunk with the whole payload, then the last chunk. *)
Definition chunkedWire (data : string) : string :=
  HexadecimalString.NilZero.string_of_uint (Nat.to_hex_uint (String.length data))
  +:+ CRLF +:+ data +:+ CRLF +:+ "0" +:+ CRLF.

(** The wire form of a response.  As [Response.Write] does, it refuses a
    response whose [ContentLength] disagrees with the length of its
    body. *)
Definition Response_Write (r : ResponseObj) : string * option error :=
  let '(data, err) := ReadAll (RespBody r) in
  match err with
  | Some e => ("", Some e)
  | None =>
      if (0 <=? ContentLength r)%Z &&
         negb (ContentLength r =? Z.of_nat (String.length data))%Z
      then ("", Some "http: ContentLength with wrong Body length")
      else ("HTTP/1.1 " +:+ Status r +:+ CRLF +:+ headerLines (RespHeader r)
            +:+ CRLF +:+ data, None)
  end.

(** The body of a request once a transport has read it to its end. *)
Definition consumed (b : Body) : Body :=
  match b with
  | Stream s => Stream (snd (ReadFrom s))
  | _ => b
  end.

Definition tick (d : Z) (t : Time) : Time :=
  {| wall := wall t + d; mono := mono t + d |}.

(** A transport whose server echoes the body of the request: it reads
    the request body to its end, puts it on the wire, and after
    1234567ns returns response [resp] with the same bytes as its body;
    [contentLength] is the length that the response declares. *)
Definition echoWith (resp : nat) (contentLength : string -> Z)
    (req : nat) (w : World) : (nat * option error) * World :=
  match requests w !! req with
  | None => ((0, Some errNilPointer), w)
  | Some r =>
      let '(data, err) := ReadAll (Body_ r) in
      let reqs := <[req := setBody (consumed (Body_ r)) r]> (requests w) in
      match err with
      | Some e =>
          ((0, Some e),
           {| requests := reqs; responses := responses w;
              clock := clock w; wire := wire w |})
      | None =>
          ((resp, None),
           {| requests := reqs;
              responses :=
                <[resp := {| Status := "200 OK"; StatusCode := 200;
                             RespProtoMajor := 1; RespProtoMinor := 1;
                             RespHeader := ∅;
                             RespBody := Stream (bytesReader data);
                             ContentLength := contentLength data;
                             RespTransferEncoding := [] |}]> (responses w);
              clock := tick 1234567 (clock w);
              wire := wire w ++ [data] |})
      end
  end.

Definition echo : nat -> World -> (nat * option error) * World :=
  echoWith 1 (fun data => Z.of_nat (String.length data)).

(** A transport that cannot connect: a nil response and an error. *)
Definition refuse (req : nat) (w : World) : (nat * option error) * World :=
  ((0, Some "dial tcp: connection refused"), w).

(** A stand-in for [Time.Format]: the wall-clock reading in
    nanoseconds, in decimal. *)
Definition Format (t : Time) (layout : string) : string :=
  DecimalString.NilZero.string_of_int (Z.to_int (wall t)).

(** Modelled from the spec: [i18n.T], of the package i18n of this
    repository, is not among the sources.  The specification has it "a
    localized-string lookup taking a template and a key-value
    substitution map" that "may be stubbed with identity formatting":
    the template is returned, followed by the values of the map. *)
Definition T (translationID : string) (args : list (string * string)) : string :=
  translationID +:+ String.concat "" (List.map snd args).

(** Modelled from the spec: [terminal.HeaderColor], of the package
    bluemix/terminal of this repository, is not among the sources; the
    specification counts colour among the "external glue".  Here it
    leaves the label as it is. *)
Definition HeaderColor (s : string) : string := s.

(** The Go model with these parameters, the echo transport as
    [http.DefaultTransport], and the redaction policy [sensitive]. *)
Definition env (sensitive : list string) : Env :=
  GoHTTP.env requestHead chunkedWire Response_Write echo Format T HeaderColor
    (Trace.Sanitize sensitive).

Definition url : URL :=
  {| URL_Host := "example.com"; URL_RequestURI := "/login" |}.

(** A POST of [body] with the given content type. *)
Definition post (contentType : string) (body : Body) : RequestObj :=
  {| Method := "POST"; URL_ := url; ProtoMajor := 1; ProtoMinor := 1;
     Header := {[ "Content-Type" := [contentType] ]};
     Body_ := body; TransferEncoding := []; Host := "example.com";
     RequestURI := "" |}.

(** A world whose only object is the request [r], under the pointer 7. *)
Definition world (r : RequestObj) : World :=
  {| requests := {[ 7 := r ]}; responses := ∅;
     clock := {| wall := 1000; mono := 50 |}; wire := [] |}.

Definition form : RequestObj :=
  post "application/x-www-form-urlencoded" (Stream (bytesReader "a=1&b=2")).

Definition upload : RequestObj :=
  post "multipart/form-data; boundary=xyz" (Stream (bytesReader "--xyz--")).

(** A form whose body stream reports an error when it is closed. *)
Definition formCloseFails : RequestObj :=
  post "application/x-www-form-urlencoded"
    (Stream {| unread := "a=1&b=2"; readErr := None;
               closeErr := Some "close: file already closed" |}).

(** A form whose content type is followed by a bearer token. *)
Definition authorized : RequestObj :=
  {| Method := "POST"; URL_ := url; ProtoMajor := 1; ProtoMinor := 1;
     Header := {[ "Authorization" := ["Bearer secret123"] ]};
     Body_ := Stream (bytesReader "a=1&b=2"); TransferEncoding := [];
     Host := "example.com"; RequestURI := "" |}.

(** A form whose only field is a password. *)
Definition passwordForm : RequestObj :=
  post "application/x-www-form-urlencoded"
    (Stream (bytesReader "password=DATA")).

(** A form whose only field is the token. *)
Definition tokenForm : RequestObj :=
  post "application/x-www-form-urlencoded"
    (Stream (bytesReader "token=secret123")).

(** A multipart upload whose content type was stored under a key that
    is not in canonical form, as [req.Header["content-type"] = ...]
    stores it. *)
Definition lowercaseUpload : RequestObj :=
  {| Method := "POST"; URL_ := url; ProtoMajor := 1; ProtoMinor := 1;
     Header := {[ "content-type" := ["multipart/form-data; boundary=xyz"] ]};
     Body_ := Stream (bytesReader "--xyz--"); TransferEncoding := [];
     Host := "example.com"; RequestURI := "" |}.

(** The environment in which the token [secret123] is known to be
    sensitive, and the one in which the password [DATA] is. *)
Definition tokenEnv : Env := env ["secret123"].
Definition passwordEnv : Env := env ["DATA"].

(** The decorator around the default transport, around the transport
    that cannot connect, and around an echo whose response declares 99
    bytes whatever its body. *)
Definition viaEcho : TraceLoggingTransport (E := tokenEnv) :=
  NewTraceLoggingTransport None.

Definition viaRefuse : TraceLoggingTransport (E := tokenEnv) :=
  NewTraceLoggingTransport (Some (refuse : RoundTripper (H := tokenEnv))).

Definition viaBadLength : TraceLoggingTransport (E := tokenEnv) :=
  NewTraceLoggingTransport
    (Some (echoWith 1 (fun _ => 99%Z) : RoundTripper (H := tokenEnv))).

(** A transport whose connection breaks while the body of the response
    is on its way: the response is there, its body yields [partial] and
    then an error. *)
Definition truncated (req : nat) (w : World) : (nat * option error) * World :=
  ((1, None),
   {| requests := requests w;
      responses :=
        <[1 := {| Status := "200 OK"; StatusCode := 200;
                  RespProtoMajor := 1; RespProtoMinor := 1;
                  RespHeader := ∅;
                  RespBody :=
                    Stream {| unread := "partial";
                              readErr := Some "unexpected EOF";
                              closeErr := None |};
                  ContentLength := 100;
                  RespTransferEncoding := [] |}]> (responses w);
      clock := tick 1234567 (clock w);
      wire := wire w |}).

Definition viaTruncated : TraceLoggingTransport (E := tokenEnv) :=
  NewTraceLoggingTransport (Some (truncated : RoundTripper (H := tokenEnv))).

(** A transport that answers [ok] after [d] nanoseconds. *)
Definition answerAfter (d : Z) (req : nat) (w : World)
  : (nat * option error) * World :=
  ((1, None),
   {| requests := requests w;
      responses :=
        <[1 := {| Status := "200 OK"; StatusCode := 200;
                  RespProtoMajor := 1; RespProtoMinor := 1;
                  RespHeader := ∅;
                  RespBody := Stream (bytesReader "ok");
                  ContentLength := 2;
                  RespTransferEncoding := [] |}]> (responses w);
      clock := tick d (clock w);
      wire := wire w |}).

(** A call that takes a little less than a hundred days. *)
Definition hundredDays : Z := 8632277188500001.

Definition viaSlow : TraceLoggingTransport (E := tokenEnv) :=
  NewTraceLoggingTransport
    (Some (answerAfter hundredDays : RoundTripper (H := tokenEnv))).

Definition viaEchoPassword : TraceLoggingTransport (E := passwordEnv) :=
  NewTraceLoggingTransport None.

(** An environment whose request serializer fails on every request;
    the rest is the Go model. *)
Definition failingDumpEnv : Env :=
  Build_Env World nat nat error Time Float64.float64
    Now Format Sub Seconds mul1000 (fun e => e)
    Header_Get
    (fun _ _ w => (("", Some "http: request cannot be serialized"), w))
    (DumpResponse Response_Write) echo
    T HeaderColor (Trace.Sanitize []).

Definition viaEchoFailingDump : TraceLoggingTransport (E := failingDumpEnv) :=
  NewTraceLoggingTransport None.

End Example.

(** * Properties *)

(** ** The control flow of the decorator, for every environment *)

Section Decorator.
Context `{E : Env}.

Ltac run :=
  unfold RoundTrip, dumpRequest, dumpResponse, requestLog, transportCall,
    beforeTransport, isMultipart, bind, call, read, ret,
    Logger_Printf, Logger_Println in *;
  cbn [fst snd Printf Println RecordingPrinter NullPrinter] in *.

(** What [dumpRequest] does, in one equation: one call of
    [httputil.DumpRequest], then one or two calls of the printer. *)
Lemma dumpRequest_unfold {Sink} `{!Printer Sink} r req start w (l : Sink) :
  dumpRequest r req start (w, l) =
  let shouldDisplayBody := negb (isMultipart req w) in
  let '((dumped, err), w') := DumpRequest req shouldDisplayBody w in
  (tt, (w',
        match err with
        | Some err =>
            Printf (T request_error_template [("Error", error_Error err)]) [] l
        | None =>
            let l' :=
              Printf request_format
                [ArgString (HeaderColor (T "REQUEST:" []));
                 ArgString (time_Format start RFC3339);
                 ArgString (Sanitize dumped)] l in
            if negb shouldDisplayBody
            then Println [ArgString multipart_marker] l'
            else l'
        end)).
Proof.
  run. destruct (DumpRequest _ _ w) as [[dumped [err|]] w']; cbn; try reflexivity.
  destruct (negb (negb _)); reflexivity.
Qed.

(** What [dumpResponse] does, in one equation. *)
Lemma dumpResponse_unfold {Sink} `{!Printer Sink} r res start w (l : Sink) :
  dumpResponse r res start (w, l) =
  let '(end_, w1) := time_Now w in
  let '((dumped, err), w') := DumpResponse res true w1 in
  (tt, (w',
        match err with
        | Some err =>
            Printf (T response_error_template [("Error", error_Error err)]) [] l
        | None =>
            Printf response_format
              [ArgString (HeaderColor (T "RESPONSE:" []));
               ArgString (time_Format end_ RFC3339);
               ArgString (HeaderColor (T "Elapsed:" []));
               ArgFloat64
                 (float64_mul1000 (Duration_Seconds (time_Sub end_ start)));
               ArgString (Sanitize dumped)] l
        end)).
Proof.
  run. destruct (time_Now w) as [end_ w1].
  destruct (DumpResponse _ _ w1) as [[dumped [err|]] w']; reflexivity.
Qed.

(** What [RoundTrip] does, in one equation. *)
Lemma RoundTrip_unfold {Sink} `{!Printer Sink} r req (s : World * Sink) :
  RoundTrip r req s =
  let s2 := beforeTransport r req s in
  let '((resp, err), w3) := rt r req (fst s2) in
  match err with
  | Some _ => ((resp, err), (w3, snd s2))
  | None =>
      ((resp, err), snd (dumpResponse r resp (fst (time_Now (fst s))) (w3, snd s2)))
  end.
Proof.
  destruct s as [w l]. unfold RoundTrip, beforeTransport, bind, call, ret. cbn [fst snd].
  destruct (time_Now w) as [start w1].
  destruct (dumpRequest r req start (w1, l)) as [[] [w2 l2]]. cbn [fst snd].
  destruct (rt r req w2) as [[resp [err|]] w3]; [reflexivity|].
  destruct (dumpResponse r resp start (w3, l2)) as [[] s4]. reflexivity.
Qed.

(** The world in which the transport is called does not depend on the
    sink. *)
Lemma beforeTransport_world {S1 S2} (P1 : Printer S1) (P2 : Printer S2)
    r req w (l1 : S1) (l2 : S2) :
  fst (beforeTransport r req (w, l1)) = fst (beforeTransport r req (w, l2)).
Proof.
  unfold beforeTransport. cbn [fst snd]. destruct (time_Now w) as [start w1].
  rewrite !dumpRequest_unfold. cbn zeta.
  destruct (DumpRequest _ _ w1) as [[dumped err] w']. reflexivity.
Qed.

(** The recording printer appends: the log before the transport is the
    log before the call followed by [requestLog]. *)
Lemma beforeTransport_log r req w (log : list Call) :
  beforeTransport r req (w, log) =
  (fst (beforeTransport r req (w, log)), log ++ requestLog r req w).
Proof.
  unfold requestLog, beforeTransport. cbn [fst snd].
  destruct (time_Now w) as [start w1]. rewrite !dumpRequest_unfold. cbn zeta.
  destruct (DumpRequest _ _ w1) as [[dumped [err|]] w']; cbn; [reflexivity|].
  destruct (negb (negb _)); cbn; rewrite <- ?app_assoc; reflexivity.
Qed.

(** [dumpRequest] writes no response trace line. *)
Lemma requestLog_no_response r req w :
  forallb (fun c => negb (isResponseTrace c)) (requestLog r req w) = true.
Proof.
  unfold requestLog, beforeTransport. cbn [fst snd].
  destruct (time_Now w) as [start w1]. rewrite dumpRequest_unfold. cbn zeta.
  destruct (DumpRequest _ _ w1) as [[dumped [err|]] w']; cbn; [reflexivity|].
  destruct (negb (negb _)); reflexivity.
Qed.

End Decorator.

Section DecoratorClaims.
Context `{E : Env}.

(** C1.  When the wrapped transport returns an error, [RoundTrip]
    returns that error, and the response next to it, as they are; the
    world is the one the transport left and the log has grown by the
    calls of [dumpRequest] alone, none of which is a response trace
    line: [dumpResponse] has not run. *)
Theorem RoundTrip_transport_error r req w (log : list Call) resp e w3 :
  rt r req (fst (beforeTransport r req (w, log))) = ((resp, Some e), w3) ->
  RoundTrip r req (w, log) = ((resp, Some e), (w3, log ++ requestLog r req w))
  /\ forallb (fun c => negb (isResponseTrace c)) (requestLog r req w) = true.
Proof.
  intros Hrt. split; [|apply requestLog_no_response].
  rewrite RoundTrip_unfold. cbn zeta. rewrite Hrt.
  rewrite beforeTransport_log. reflexivity.
Qed.

(** C10.  The response value that [RoundTrip] returns next to an error
    of the wrapped transport is the one the transport returned, whatever
    it is, and for every sink. *)
Theorem RoundTrip_error_response {Sink} `{!Printer Sink} r req (s : World * Sink)
    resp e w3 :
  rt r req (fst (beforeTransport r req s)) = ((resp, Some e), w3) ->
  fst (fst (RoundTrip r req s)) = resp.
Proof.
  intros Hrt. rewrite RoundTrip_unfold. cbn zeta. rewrite Hrt. reflexivity.
Qed.

(** C8.  The result of [RoundTrip] and the world it leaves are the same
    with the printer that discards everything as with any other
    printer, in any state of its sink. *)
Theorem RoundTrip_sink_independent {Sink} (P : Printer Sink) r req w (l : Sink) :
  fst (RoundTrip (P := P) r req (w, l)) =
    fst (RoundTrip (P := NullPrinter) r req (w, tt))
  /\ fst (snd (RoundTrip (P := P) r req (w, l))) =
       fst (snd (RoundTrip (P := NullPrinter) r req (w, tt))).
Proof.
  rewrite !RoundTrip_unfold. cbn zeta.
  rewrite (beforeTransport_world P NullPrinter r req w l tt).
  destruct (rt r req _) as [[resp [err|]] w3]; cbn [fst snd]; [auto|].
  rewrite !dumpResponse_unfold.
  destruct (time_Now w3) as [end_ w4].
  destruct (DumpResponse resp true w4) as [[dumped err] w5]. auto.
Qed.

(** C9.  When the content type names multipart form data and
    [httputil.DumpRequest] fails, [dumpRequest] makes one call to the
    printer, the diagnostic line; that call is neither a request trace
    line nor the marker line. *)
Theorem dumpRequest_multipart_failure r req start w (log : list Call)
    dumped e w' :
  isMultipart req w = true ->
  DumpRequest req false w = ((dumped, Some e), w') ->
  let diagnostic :=
    CallPrintf (T request_error_template [("Error", error_Error e)]) [] in
  dumpRequest r req start (w, log) = (tt, (w', log ++ [diagnostic]))
  /\ isRequestTrace diagnostic = false
  /\ isMultipartMarker diagnostic = false.
Proof.
  intros Hm Hd. cbn zeta. split; [|split; reflexivity].
  rewrite dumpRequest_unfold. cbn zeta. rewrite Hm. cbn [negb].
  rewrite Hd. reflexivity.
Qed.

(** Whatever the dumps do, [RoundTrip] returns the pair that the
    wrapped transport returns for [req] in the world that
    [dumpRequest] has left.  When [httputil.DumpRequest] fails, the
    diagnostic line is the only call to the printer before the transport
    is called.  When [httputil.DumpResponse] fails after a successful
    transport call, whatever the request dump did, the diagnostic line
    follows the calls of the request dump, and the response comes back
    with a nil error.  What the failed dump has left of the world is not
    said here. *)
Lemma dump_failure_not_fatal r req w (log : list Call) :
  fst (RoundTrip r req (w, log)) =
    fst (rt r req (fst (beforeTransport r req (w, log))))
  /\ (forall dumped e w',
        DumpRequest req (negb (isMultipart req (snd (time_Now w))))
          (snd (time_Now w)) = ((dumped, Some e), w') ->
        beforeTransport r req (w, log) =
          (w', log ++ [CallPrintf
                         (T request_error_template [("Error", error_Error e)])
                         []]))
  /\ (forall resp w3 dumped e w',
        rt r req (fst (beforeTransport r req (w, log))) = ((resp, None), w3) ->
        DumpResponse resp true (snd (time_Now w3)) = ((dumped, Some e), w') ->
        RoundTrip r req (w, log) =
          ((resp, None),
           (w', log ++ requestLog r req w ++
                [CallPrintf
                   (T response_error_template [("Error", error_Error e)])
                   []]))).
Proof.
  split; [|split].
  - rewrite RoundTrip_unfold. cbn zeta.
    destruct (rt r req _) as [[resp [err|]] w3]; reflexivity.
  - intros dumped e w' Hd. unfold beforeTransport. cbn [fst snd].
    destruct (time_Now w) as [start w1]. cbn [snd] in Hd.
    rewrite dumpRequest_unfold. cbn zeta. rewrite Hd. reflexivity.
  - intros resp w3 dumped e w' Hrt Hd.
    rewrite RoundTrip_unfold. cbn zeta. rewrite Hrt.
    rewrite dumpResponse_unfold.
    destruct (time_Now w3) as [end_ w4]. cbn [snd] in Hd. rewrite Hd.
    rewrite beforeTransport_log. cbn [snd Printf RecordingPrinter].
    rewrite <- app_assoc. reflexivity.
Qed.

End DecoratorClaims.

(** ** The dump functions of Go and the body streams *)

Section GoDump.

Variable requestHead : GoHTTP.RequestObj -> string.
Variable chunkedWire : string -> string.
Variable Response_Write : GoHTTP.ResponseObj -> string * option GoHTTP.error.
Variable defaultTransport : nat -> GoHTTP.World -> (nat * option GoHTTP.error) * GoHTTP.World.
Variable format : GoHTTP.Time -> string -> string.
Variable i18nT : string -> list (string * string) -> string.
Variable headerColor : string -> string.
Variable sanitize : string -> string.

Local Abbreviation goEnv :=
  (GoHTTP.env requestHead chunkedWire Response_Write defaultTransport
     format i18nT headerColor sanitize).

Lemma append_empty_r (s : string) : s +:+ "" = s.
Proof.
  induction s as [|c s IH]; [reflexivity|].
  change (String c (s +:+ "") = String c s). now rewrite IH.
Qed.

Lemma setBody_same (r : GoHTTP.RequestObj) : GoHTTP.setBody (GoHTTP.Body_ r) r = r.
Proof. destruct r; reflexivity. Qed.

Lemma setRespBody_same (r : GoHTTP.ResponseObj) :
  GoHTTP.setRespBody (GoHTTP.RespBody r) (GoHTTP.ContentLength r) r = r.
Proof. destruct r; reflexivity. Qed.

Lemma setRequests_same (w : GoHTTP.World) req r :
  GoHTTP.requests w !! req = Some r ->
  GoHTTP.setRequests (<[req := r]> (GoHTTP.requests w)) w = w.
Proof. intros H. rewrite insert_id by exact H. destruct w; reflexivity. Qed.

Lemma setResponses_same (w : GoHTTP.World) resp r :
  GoHTTP.responses w !! resp = Some r ->
  GoHTTP.setResponses (<[resp := r]> (GoHTTP.responses w)) w = w.
Proof. intros H. rewrite insert_id by exact H. destruct w; reflexivity. Qed.

(** A GoHTTP.drainable stream is drained into two readers that both equal
    it. *)
Lemma drainBody_drainable (b : GoHTTP.Body) :
  GoHTTP.drainable b = true -> GoHTTP.isNil b = false ->
  GoHTTP.drainBody b = (b, b, None).
Proof.
  destruct b as [| |[data [re|] [ce|]]]; cbn; try discriminate; reflexivity.
Qed.

(** A stream that is not GoHTTP.drainable makes [GoHTTP.drainBody] fail. *)
Lemma drainBody_not_drainable (b : GoHTTP.Body) :
  GoHTTP.drainable b = false -> exists b' e, GoHTTP.drainBody b = (GoHTTP.nilBody, b', Some e).
Proof.
  destruct b as [| |[data [re|] [ce|]]]; cbn; try discriminate; eauto.
Qed.

(** [GoHTTP.DumpRequest] on an allocated request whose body is not displayed
    or can be drained: it returns the text of the request and leaves the
    world as it found it. *)
Lemma DumpRequest_ok req body (w : GoHTTP.World) r :
  GoHTTP.requests w !! req = Some r ->
  negb body || GoHTTP.drainable (GoHTTP.Body_ r) = true ->
  GoHTTP.DumpRequest requestHead chunkedWire req body w =
    ((GoHTTP.requestText requestHead chunkedWire r body, None), w).
Proof.
  intros Hr Hb. unfold GoHTTP.DumpRequest, GoHTTP.requestText, GoHTTP.bodyWire. rewrite Hr.
  destruct (negb body || GoHTTP.isNil (GoHTTP.Body_ r)) eqn:Hn.
  - cbn. rewrite setBody_same, setRequests_same by exact Hr.
    destruct body; cbn in *; [|now rewrite append_empty_r].
    rewrite Hn. now rewrite append_empty_r.
  - apply orb_false_elim in Hn as [Hbody Hnil].
    destruct body; [|discriminate]. cbn in Hb.
    rewrite (drainBody_drainable _ Hb Hnil). rewrite Hnil.
    assert (Herr : snd (GoHTTP.ReadAll (GoHTTP.Body_ r)) = None).
    { destruct (GoHTTP.Body_ r) as [| |[data [re|] [ce|]]]; cbn in *;
        try discriminate; reflexivity. }
    destruct (GoHTTP.ReadAll (GoHTTP.Body_ r)) as [data err]. cbn in Herr. subst err.
    cbn [fst]. rewrite setBody_same, setRequests_same by exact Hr.
    destruct (GoHTTP.isChunked r); reflexivity.
Qed.

(** [GoHTTP.DumpRequest] that does not display the body cannot fail on an
    allocated request. *)
Lemma DumpRequest_headers_only req (w : GoHTTP.World) r :
  GoHTTP.requests w !! req = Some r ->
  snd (fst (GoHTTP.DumpRequest requestHead chunkedWire req false w)) = None.
Proof. intros Hr. now rewrite (DumpRequest_ok req false w r Hr). Qed.

(** [GoHTTP.DumpRequest] fails exactly when it has to drain a stream that
    cannot be drained. *)
Lemma DumpRequest_fails req (w : GoHTTP.World) r :
  GoHTTP.requests w !! req = Some r ->
  GoHTTP.drainable (GoHTTP.Body_ r) = false ->
  exists e, fst (GoHTTP.DumpRequest requestHead chunkedWire req true w) = ("", Some e).
Proof.
  intros Hr Hb. unfold GoHTTP.DumpRequest. rewrite Hr.
  assert (Hnil : GoHTTP.isNil (GoHTTP.Body_ r) = false) by (destruct (GoHTTP.Body_ r); [discriminate|reflexivity..]).
  rewrite Hnil. cbn [negb orb].
  destruct (drainBody_not_drainable _ Hb) as (b' & e & ->). eauto.
Qed.

(** [GoHTTP.DumpResponse] on an allocated response whose body can be drained
    leaves the world as it found it, whether or not [Response.Write]
    fails. *)
Lemma DumpResponse_restores resp (w : GoHTTP.World) r :
  GoHTTP.responses w !! resp = Some r ->
  GoHTTP.drainable (GoHTTP.RespBody r) = true ->
  snd (GoHTTP.DumpResponse Response_Write resp true w) = w.
Proof.
  intros Hr Hb. unfold GoHTTP.DumpResponse. rewrite Hr. cbn [negb].
  destruct (GoHTTP.isNil (GoHTTP.RespBody r)) eqn:Hnil.
  - destruct (Response_Write _) as [b [e|]];
      [destruct (String.eqb e GoHTTP.errNoBody)|]; cbn;
      now rewrite setRespBody_same, setResponses_same.
  - rewrite (drainBody_drainable _ Hb Hnil).
    rewrite setRespBody_same.
    destruct (Response_Write r) as [b [e|]];
      [destruct (String.eqb e GoHTTP.errNoBody)|]; cbn;
      now rewrite setResponses_same.
Qed.

(** The request [r] carries a content type that names multipart form
    data. *)
Local Abbreviation multipart r :=
  (Strings.Contains (GoHTTP.Get (GoHTTP.Header r) "Content-Type") "multipart/form-data").

(** With Go's dump functions, the transport is called in the world in
    which [RoundTrip] was called, when the request body is not displayed
    or can be drained. *)
Lemma beforeTransport_restores {Sink} `{!Printer (H := goEnv) Sink}
    (r : TraceLoggingTransport (E := goEnv)) (req : nat) (w : GoHTTP.World)
    (sink : Sink) robj :
  GoHTTP.requests w !! req = Some robj ->
  multipart robj || GoHTTP.drainable (GoHTTP.Body_ robj) = true ->
  fst (beforeTransport (E := goEnv) r req (w, sink)) = w.
Proof.
  intros Hr Hb. unfold beforeTransport. cbn [fst snd time_Now GoHTTP.env GoHTTP.Now].
  rewrite (dumpRequest_unfold (E := goEnv)). cbn zeta.
  unfold isMultipart. cbn [Header_Get DumpRequest GoHTTP.env].
  unfold GoHTTP.Header_Get. rewrite Hr.
  rewrite (DumpRequest_ok req _ w robj Hr); [reflexivity|].
  destruct (multipart robj); [reflexivity|exact Hb].
Qed.

(** C6, as far as it holds.  A body that the dump does not display, and
    a body stream that can be drained (its [Read] reaches [io.EOF] and
    its [Close] reports no error), is restored: the wrapped transport is
    called in the very world in which [RoundTrip] was called, with the
    request and its body as the caller left them, and the world after
    [RoundTrip] is the very world the transport left, with the response
    and its body as the transport produced them. *)
Theorem bodies_restored_when_drainable {Sink} `{!Printer (H := goEnv) Sink}
    (r : TraceLoggingTransport (E := goEnv)) (req : nat) (w : GoHTTP.World)
    (sink : Sink) robj :
  GoHTTP.requests w !! req = Some robj ->
  multipart robj || GoHTTP.drainable (GoHTTP.Body_ robj) = true ->
  fst (beforeTransport (E := goEnv) r req (w, sink)) = w
  /\ forall resp w3 respObj,
       rt r req w = ((resp, None), w3) ->
       GoHTTP.responses w3 !! resp = Some respObj ->
       GoHTTP.drainable (GoHTTP.RespBody respObj) = true ->
       fst (RoundTrip (E := goEnv) r req (w, sink)) = (resp, None)
       /\ fst (snd (RoundTrip (E := goEnv) r req (w, sink))) = w3.
Proof.
  intros Hr Hb.
  pose proof (beforeTransport_restores r req w sink robj Hr Hb) as Hw.
  split; [exact Hw|].
  intros resp w3 respObj Hrt Hresp Hd.
  rewrite (RoundTrip_unfold (E := goEnv)). cbn zeta. rewrite Hw, Hrt.
  split; [reflexivity|].
  rewrite (dumpResponse_unfold (E := goEnv)).
  cbn [fst snd time_Now DumpResponse GoHTTP.env GoHTTP.Now].
  pose proof (DumpResponse_restores resp w3 respObj Hresp Hd) as Hw3.
  destruct (GoHTTP.DumpResponse Response_Write resp true w3) as [[dumped err] w5].
  cbn [fst snd] in *. exact Hw3.
Qed.

End GoDump.

(** ** Facts about strings *)

Section StringFacts.

Lemma HasPrefix_empty_l (p : string) :
  Strings.HasPrefix "" p = true -> p = "".
Proof. destruct p; [reflexivity|discriminate]. Qed.

Lemma Contains_empty_l (p : string) :
  p <> "" -> Strings.Contains "" p = false.
Proof. destruct p; [congruence|reflexivity]. Qed.

Lemma Contains_cons (c : ascii) (s p : string) :
  Strings.Contains (String c s) p =
  Strings.HasPrefix (String c s) p || Strings.Contains s p.
Proof. reflexivity. Qed.

(** A text that has no closing bracket and starts [u] followed by a
    closing bracket starts [u] itself. *)
Lemma HasPrefix_before_bracket (u x p : string) :
  Trace.forallb_string Trace.notBracket p = true ->
  Strings.HasPrefix (u +:+ String "]" x) p = true ->
  Strings.HasPrefix u p = true.
Proof.
  revert p. induction u as [|c u IH]; intros [|a p] Hp H; try reflexivity.
  - change ("" +:+ String "]" x) with (String "]" x) in H.
    cbn [Strings.HasPrefix] in H.
    destruct (Ascii.eqb "]" a) eqn:Ha; [|discriminate].
    apply Ascii.eqb_eq in Ha as <-. discriminate.
  - change (Strings.HasPrefix (String c (u +:+ String "]" x)) (String a p) = true) in H.
    cbn [Strings.HasPrefix Trace.forallb_string] in *.
    destruct (Ascii.eqb c a); [|discriminate].
    apply andb_prop in Hp as [_ Hp]. now apply IH.
Qed.

Lemma Contains_before_bracket (u x p : string) :
  Trace.forallb_string Trace.notBracket p = true ->
  Strings.Contains u p = false ->
  Strings.Contains (String "]" x) p = false ->
  Strings.Contains (u +:+ String "]" x) p = false.
Proof.
  intros Hp. induction u as [|c u IH]; intros Hu Hx; [exact Hx|].
  change (Strings.Contains (String c (u +:+ String "]" x)) p = false).
  rewrite Contains_cons in *. apply orb_false_elim in Hu as [Hu1 Hu2].
  apply orb_false_intro; [|now apply IH].
  destruct (Strings.HasPrefix (String c (u +:+ String "]" x)) p) eqn:H;
    [|reflexivity].
  rewrite <- Hu1. symmetry.
  now apply (HasPrefix_before_bracket (String c u) x p Hp).
Qed.

End StringFacts.

(** ** The clock and the elapsed time *)

Section Elapsed.
Context `{E : Env}.

(** The elapsed time handed to the printer under [%.0f] is
    [end.Sub(start).Seconds()*1000], where [start] is read first thing
    in [RoundTrip] and [end] right after the transport has returned. *)
Lemma response_trace_elapsed r req w resp w3 dumped w5 :
  rt r req (fst (beforeTransport r req (w, []))) = ((resp, None), w3) ->
  DumpResponse resp true (snd (time_Now w3)) = ((dumped, None), w5) ->
  omap elapsedArg (roundTripLog r req w) =
    [float64_mul1000
       (Duration_Seconds (time_Sub (fst (time_Now w3)) (fst (time_Now w))))].
Proof.
  intros Hrt Hd. unfold roundTripLog. rewrite RoundTrip_unfold. cbn zeta.
  rewrite Hrt. rewrite dumpResponse_unfold.
  destruct (time_Now w3) as [end_ w4]. cbn [fst snd] in *. rewrite Hd.
  rewrite beforeTransport_log. cbn [fst snd Printf RecordingPrinter app].
  rewrite omap_app. cbn.
  replace (omap elapsedArg (requestLog r req w)) with (@nil float64);
    [reflexivity|].
  unfold requestLog, beforeTransport. cbn [fst snd].
  destruct (time_Now w) as [start w1]. rewrite dumpRequest_unfold. cbn zeta.
  destruct (DumpRequest _ _ w1) as [[d [err|]] w']; cbn; [reflexivity|].
  destruct (negb (negb _)); reflexivity.
Qed.

End Elapsed.

(** With two readings of a monotonic clock that are less than 2^63
    nanoseconds apart, [Sub] is their difference, and is not
    negative. *)
Lemma Sub_monotonic (t u : GoHTTP.Time) :
  (GoHTTP.mono u <= GoHTTP.mono t)%Z ->
  (GoHTTP.mono t - GoHTTP.mono u < 2 ^ 63)%Z ->
  GoHTTP.Sub t u = (GoHTTP.mono t - GoHTTP.mono u)%Z
  /\ (0 <= GoHTTP.Sub t u)%Z.
Proof.
  intros Hle Hlt. unfold GoHTTP.Sub, GoHTTP.int64.
  rewrite Z.mod_small by lia.
  replace (GoHTTP.mono t - GoHTTP.mono u + 2 ^ 63 - 2 ^ 63)%Z
    with (GoHTTP.mono t - GoHTTP.mono u)%Z by lia.
  destruct (Z.ltb_spec (GoHTTP.mono t - GoHTTP.mono u) 0); [lia|].
  cbn [andb].
  destruct (Z.ltb_spec (GoHTTP.mono t) (GoHTTP.mono u)); [lia|].
  rewrite andb_false_r. lia.
Qed.

(** ** The model at work *)

Section Examples.

(** A form with the body [a=1&b=2]: the logged request dump ends with
    the body, the transport puts the body on the wire, and the caller
    can read the whole response body afterwards. *)
Example form_round_trip :
  let '(result, (w, log)) := RoundTrip Example.viaEcho 7 (Example.world Example.form, []) in
  result = (1, None)
  /\ GoHTTP.wire w = ["a=1&b=2"]
  /\ (GoHTTP.ReadAll ∘ GoHTTP.RespBody) <$> GoHTTP.responses w !! 1
       = Some ("a=1&b=2", None)
  /\ existsb (fun t => Strings.Contains t "a=1&b=2") (dumpTexts log) = true
  /\ existsb isMultipartMarker log = false.
Proof. vm_compute. repeat split; reflexivity. Qed.

(** A multipart upload: the marker line is written and the request dump
    does not show the body. *)
Example upload_round_trip :
  let log := roundTripLog Example.viaEcho 7 (Example.world Example.upload) in
  existsb isMultipartMarker log = true
  /\ Strings.Contains (hd "" (dumpTexts log)) "--xyz--" = false.
Proof. vm_compute. split; reflexivity. Qed.

(** A bearer token that the policy knows: the logged dump has the
    placeholder and not the token. *)
Example bearer_token_hidden :
  let t := hd "" (dumpTexts (roundTripLog Example.viaEcho 7 (Example.world Example.authorized))) in
  Strings.Contains t "Authorization: Bearer [PRIVATE DATA HIDDEN]" = true
  /\ Strings.Contains t "secret123" = false.
Proof. vm_compute. split; reflexivity. Qed.

(** The elapsed time of that call, as the verb [%.0f] prints it: the
    echo transport takes 1234567ns. *)
Example form_elapsed :
  Fmt.f0 <$> omap elapsedArg (roundTripLog Example.viaEcho 7 (Example.world Example.form))
  = ["1"].
Proof. vm_compute. reflexivity. Qed.

(** A response whose body breaks off: the dump fails, the caller gets
    the response and a nil error, and finds the body consumed up to the
    error, where the transport had left it with [partial] still to
    read. *)
Example response_body_left_drained :
  let w3 := snd (Example.truncated 7 (Example.world Example.form)) in
  let '(result, (w, log)) :=
    RoundTrip Example.viaTruncated 7 (Example.world Example.form, []) in
  result = (1, None)
  /\ (GoHTTP.ReadAll ∘ GoHTTP.RespBody) <$> GoHTTP.responses w3 !! 1
       = Some ("partial", Some "unexpected EOF")
  /\ (GoHTTP.ReadAll ∘ GoHTTP.RespBody) <$> GoHTTP.responses w !! 1
       = Some ("", Some "unexpected EOF")
  /\ existsb isResponseTrace log = false.
Proof. vm_compute. repeat split; reflexivity. Qed.

(** C1, at a transport that cannot connect. *)
Lemma RoundTrip_transport_error_witness :
  rt Example.viaRefuse 7 (fst (beforeTransport Example.viaRefuse 7 (Example.world Example.form, [])))
    = ((0, Some "dial tcp: connection refused"), Example.world Example.form)
  /\ RoundTrip Example.viaRefuse 7 (Example.world Example.form, [])
     = ((0, Some "dial tcp: connection refused"),
        (Example.world Example.form, [] ++ requestLog Example.viaRefuse 7 (Example.world Example.form)))
  /\ forallb (fun c => negb (isResponseTrace c))
       (requestLog Example.viaRefuse 7 (Example.world Example.form)) = true.
Proof.
  assert (H : rt Example.viaRefuse 7 (fst (beforeTransport Example.viaRefuse 7 (Example.world Example.form, [])))
              = ((0, Some "dial tcp: connection refused"), Example.world Example.form))
    by (vm_compute; reflexivity).
  split; [exact H|].
  exact (RoundTrip_transport_error (E := Example.tokenEnv) Example.viaRefuse 7 (Example.world Example.form) []
           0 "dial tcp: connection refused" (Example.world Example.form) H).
Defined.

(** C10, at a transport that cannot connect: the nil response is
    returned as it is. *)
Lemma RoundTrip_error_response_witness :
  fst (fst (RoundTrip Example.viaRefuse 7 (Example.world Example.form, []))) = 0.
Proof.
  apply (RoundTrip_error_response (E := Example.tokenEnv) Example.viaRefuse 7 (Example.world Example.form, [])
           0 "dial tcp: connection refused" (Example.world Example.form)).
  vm_compute. reflexivity.
Defined.

(** C9, at a multipart upload in an environment whose serializer
    fails. *)
Lemma dumpRequest_multipart_failure_witness :
  isMultipart (E := Example.failingDumpEnv) 7 (Example.world Example.upload) = true
  /\ dumpRequest (E := Example.failingDumpEnv) (P := RecordingPrinter)
       Example.viaEchoFailingDump 7 (GoHTTP.clock (Example.world Example.upload)) (Example.world Example.upload, [])
     = (tt,
        (Example.world Example.upload,
         [] ++ [CallPrintf
                  (Example.T request_error_template
                     [("Error", "http: request cannot be serialized")]) []])).
Proof.
  assert (H : isMultipart (E := Example.failingDumpEnv) 7 (Example.world Example.upload) = true)
    by (vm_compute; reflexivity).
  split; [exact H|].
  exact (proj1 (dumpRequest_multipart_failure (E := Example.failingDumpEnv)
                  Example.viaEchoFailingDump 7 (GoHTTP.clock (Example.world Example.upload))
                  (Example.world Example.upload) [] "" "http: request cannot be serialized"
                  (Example.world Example.upload) H eq_refl)).
Defined.

(** C6, at the form and the echo transport: the transport is called in
    the world of the caller, and the caller is left with the world of
    the transport. *)
Lemma bodies_restored_when_drainable_witness :
  let w3 := snd (Example.echo 7 (Example.world Example.form)) in
  GoHTTP.requests (Example.world Example.form) !! 7 = Some Example.form
  /\ GoHTTP.drainable (GoHTTP.Body_ Example.form) = true
  /\ fst (beforeTransport (E := Example.tokenEnv) (P := RecordingPrinter) Example.viaEcho 7
            (Example.world Example.form, [])) = Example.world Example.form
  /\ fst (RoundTrip (E := Example.tokenEnv) (P := RecordingPrinter) Example.viaEcho 7
            (Example.world Example.form, [])) = (1, None)
  /\ fst (snd (RoundTrip (E := Example.tokenEnv) (P := RecordingPrinter) Example.viaEcho 7
                 (Example.world Example.form, []))) = w3.
Proof.
  intros w3.
  assert (H1 : GoHTTP.requests (Example.world Example.form) !! 7 = Some Example.form)
    by (vm_compute; reflexivity).
  assert (H2 : Strings.Contains (GoHTTP.Get (GoHTTP.Header Example.form) "Content-Type")
                 "multipart/form-data"
               || GoHTTP.drainable (GoHTTP.Body_ Example.form) = true)
    by (vm_compute; reflexivity).
  assert (H3 : rt Example.viaEcho 7 (Example.world Example.form) = ((1, None), w3))
    by (vm_compute; reflexivity).
  assert (H4 : GoHTTP.responses w3 !! 1 =
               Some {| GoHTTP.Status := "200 OK"; GoHTTP.StatusCode := 200;
                       GoHTTP.RespProtoMajor := 1; GoHTTP.RespProtoMinor := 1;
                       GoHTTP.RespHeader := ∅;
                       GoHTTP.RespBody := GoHTTP.Stream (GoHTTP.bytesReader "a=1&b=2");
                       GoHTTP.ContentLength := 7;
                       GoHTTP.RespTransferEncoding := [] |})
    by (vm_compute; reflexivity).
  split; [exact H1|]. split; [reflexivity|].
  destruct (@bodies_restored_when_drainable Example.requestHead
              Example.chunkedWire Example.Response_Write Example.echo
              Example.Format Example.T Example.HeaderColor
              (Trace.Sanitize ["secret123"])
              (list (@Call Example.tokenEnv)) (@RecordingPrinter Example.tokenEnv)
              Example.viaEcho 7 (Example.world Example.form) [] Example.form
              H1 H2) as [Hw Hr].
  split; [exact Hw|].
  exact (Hr 1 w3 _ H3 H4 eq_refl).
Defined.

(** C6 fails as it is stated: a request body whose [Close] reports an
    error is drained by the dump and stays drained.  The caller handed
    over a body that reads [a=1&b=2]; the transport finds a body that
    reads as empty, and that is what it puts on the wire. *)
Lemma request_body_left_drained :
  GoHTTP.ReadAll (GoHTTP.Body_ Example.formCloseFails) = ("a=1&b=2", None)
  /\ (GoHTTP.ReadAll ∘ GoHTTP.Body_) <$>
       GoHTTP.requests
         (fst (beforeTransport (E := Example.tokenEnv) (P := RecordingPrinter)
                 Example.viaEcho 7 (Example.world Example.formCloseFails, []))) !! 7
     = Some ("", None)
  /\ GoHTTP.wire
       (fst (snd (RoundTrip (E := Example.tokenEnv) (P := RecordingPrinter) Example.viaEcho 7
                    (Example.world Example.formCloseFails, [])))) = [""].
Proof. vm_compute. repeat split; reflexivity. Qed.

End Examples.

(** * Further properties of the decorator *)

(** ** [strings.Contains] *)

Section ContainsFacts.

Lemma append_cons (c : ascii) (u x : string) :
  String c u +:+ x = String c (u +:+ x).
Proof. reflexivity. Qed.

Lemma append_nil_l (x : string) : "" +:+ x = x.
Proof. reflexivity. Qed.

(** [HasPrefix s p] holds exactly when [s] is [p] followed by some
    text. *)
Lemma HasPrefix_iff (s p : string) :
  Strings.HasPrefix s p = true <-> exists v, s = p +:+ v.
Proof.
  revert s. induction p as [|a p IH]; intros s.
  - split; [intros _; exists s; reflexivity | reflexivity].
  - destruct s as [|c s]; cbn [Strings.HasPrefix].
    + split; [discriminate | intros [v Hv]; rewrite append_cons in Hv; discriminate].
    + destruct (Ascii.eqb c a) eqn:Hca.
      * apply Ascii.eqb_eq in Hca as ->. rewrite IH. split.
        -- intros [v ->]. exists v. reflexivity.
        -- intros [v Hv]. rewrite append_cons in Hv. injection Hv as ->.
           exists v. reflexivity.
      * split; [discriminate|]. intros [v Hv]. rewrite append_cons in Hv.
        injection Hv as -> _. rewrite Ascii.eqb_refl in Hca. discriminate.
Qed.

(** X1.  [strings.Contains(s, substr)], as [dumpRequest] uses it on the
    content type, holds exactly when [substr] occurs in [s]: when [s] is
    some text, [substr], and some text. *)
Theorem Contains_iff_occurs (s substr : string) :
  Strings.Contains s substr = true <->
  exists u v, s = u +:+ substr +:+ v.
Proof.
  induction s as [|c s IH].
  - cbn [Strings.Contains]. rewrite orb_false_r, HasPrefix_iff. split.
    + intros [v Hv]. exists "", v. exact Hv.
    + intros [[|c u] [v Hv]]; [exists v; exact Hv|].
      rewrite append_cons in Hv. discriminate.
  - rewrite Contains_cons. rewrite orb_true_iff, HasPrefix_iff, IH. split.
    + intros [[v Hv]|[u [v Hv]]].
      * exists "", v. exact Hv.
      * exists (String c u), v. rewrite append_cons. now rewrite Hv.
    + intros [[|c' u] [v Hv]].
      * left. exists v. exact Hv.
      * right. rewrite append_cons in Hv. injection Hv as -> ->.
        exists u, v. reflexivity.
Qed.

End ContainsFacts.

(** ** What a call leaves in the log, for every environment *)

Section LogShape.
Context `{E : Env}.

(** [dumpRequest] does not look at the wrapped transport. *)
Lemma beforeTransport_any_transport {Sink} `{!Printer Sink}
    (r1 r2 : TraceLoggingTransport) req (s : World * Sink) :
  beforeTransport r1 req s = beforeTransport r2 req s.
Proof.
  unfold beforeTransport. destruct (time_Now (fst s)) as [start w1].
  rewrite !dumpRequest_unfold. reflexivity.
Qed.

(** The calls of [dumpRequest], case by case. *)
Lemma requestLog_cases r req w :
  requestLog r req w =
  let w1 := snd (time_Now w) in
  let multipart := isMultipart req w1 in
  let '((dumped, err), _) := DumpRequest req (negb multipart) w1 in
  match err with
  | Some err =>
      [CallPrintf (T request_error_template [("Error", error_Error err)]) []]
  | None =>
      CallPrintf request_format
        [ArgString (HeaderColor (T "REQUEST:" []));
         ArgString (time_Format (fst (time_Now w)) RFC3339);
         ArgString (Sanitize dumped)]
      :: (if multipart then [CallPrintln [ArgString multipart_marker]] else [])
  end.
Proof.
  unfold requestLog, beforeTransport. cbn [fst snd].
  destruct (time_Now w) as [start w1]. cbn [fst snd].
  rewrite dumpRequest_unfold. cbn zeta.
  destruct (DumpRequest _ _ w1) as [[dumped [err|]] w']; cbn; [reflexivity|].
  destruct (isMultipart req w1); reflexivity.
Qed.

(** The calls of [RoundTrip]: those of [dumpRequest], and after a
    successful transport call the one call of [dumpResponse]. *)
Lemma roundTripLog_cases r req w :
  roundTripLog r req w =
  requestLog r req w ++
  let '((resp, rerr), w3) := rt r req (fst (beforeTransport r req (w, []))) in
  match rerr with
  | Some _ => []
  | None =>
      let '((dumped, err), _) := DumpResponse resp true (snd (time_Now w3)) in
      match err with
      | Some err =>
          [CallPrintf (T response_error_template [("Error", error_Error err)]) []]
      | None =>
          [CallPrintf response_format
             [ArgString (HeaderColor (T "RESPONSE:" []));
              ArgString (time_Format (fst (time_Now w3)) RFC3339);
              ArgString (HeaderColor (T "Elapsed:" []));
              ArgFloat64
                (float64_mul1000
                   (Duration_Seconds
                      (time_Sub (fst (time_Now w3)) (fst (time_Now w)))));
              ArgString (Sanitize dumped)]]
      end
  end.
Proof.
  unfold roundTripLog. rewrite RoundTrip_unfold. cbn zeta.
  rewrite (beforeTransport_log r req w []). cbn [fst snd app].
  destruct (rt r req _) as [[resp [rerr|]] w3]; cbn [fst snd];
    [now rewrite app_nil_r|].
  rewrite dumpResponse_unfold. destruct (time_Now w3) as [end_ w4].
  cbn [fst snd].
  destruct (DumpResponse resp true w4) as [[dumped [err|]] w5]; reflexivity.
Qed.

(** X2.  The marker line is written exactly when the content type names
    multipart form data and [httputil.DumpRequest] has succeeded. *)
Theorem marker_iff_multipart_and_dumped r req w :
  existsb isMultipartMarker (requestLog r req w) =
  isMultipart req (snd (time_Now w)) &&
  match snd (fst (DumpRequest req
                    (negb (isMultipart req (snd (time_Now w))))
                    (snd (time_Now w)))) with
  | None => true
  | Some _ => false
  end.
Proof.
  rewrite requestLog_cases. cbn zeta.
  destruct (DumpRequest _ _ _) as [[dumped [err|]] w']; cbn [fst snd].
  - now rewrite andb_false_r.
  - destruct (isMultipart req _); reflexivity.
Qed.

(** X3.  A call writes one or two request-side calls and then, exactly
    when the transport has returned no error, one response-side call;
    the response-side call is neither a request trace line nor the
    marker. *)
Theorem roundTripLog_shape r req w :
  exists tail,
    roundTripLog r req w = requestLog r req w ++ tail
    /\ (length (requestLog r req w) = 1 \/ length (requestLog r req w) = 2)
    /\ length tail =
         match snd (fst (rt r req (fst (beforeTransport r req (w, []))))) with
         | Some _ => 0
         | None => 1
         end
    /\ forallb (fun c => negb (isRequestTrace c) && negb (isMultipartMarker c))
         tail = true.
Proof.
  rewrite roundTripLog_cases. eexists. split; [reflexivity|]. split.
  - rewrite requestLog_cases. cbn zeta.
    destruct (DumpRequest _ _ _) as [[dumped [err|]] w']; [now left|].
    destruct (isMultipart req _); [now right|now left].
  - destruct (rt r req _) as [[resp [rerr|]] w3]; cbn [fst snd];
      [split; reflexivity|].
    destruct (DumpResponse resp true _) as [[dumped [err|]] w5];
      split; reflexivity.
Qed.

(** X9.  The dump texts of a call, in order: the redacted request dump
    if [httputil.DumpRequest] has succeeded, then the redacted response
    dump if the transport and [httputil.DumpResponse] have succeeded;
    each is [trace.Sanitize] of exactly the bytes the dump function
    returned. *)
Theorem dumpTexts_roundTripLog r req w :
  dumpTexts (roundTripLog r req w) =
  let w1 := snd (time_Now w) in
  let '((dumped, err), w2) := DumpRequest req (negb (isMultipart req w1)) w1 in
  let '((resp, rerr), w3) := rt r req w2 in
  match err with
  | None => [Sanitize dumped]
  | Some _ => []
  end ++
  match rerr with
  | Some _ => []
  | None =>
      let '((dumped', err'), _) := DumpResponse resp true (snd (time_Now w3)) in
      match err' with
      | None => [Sanitize dumped']
      | Some _ => []
      end
  end.
Proof.
  rewrite roundTripLog_cases, requestLog_cases. cbn zeta.
  unfold beforeTransport. cbn [fst snd].
  destruct (time_Now w) as [start w1]. cbn [fst snd].
  rewrite dumpRequest_unfold. cbn zeta.
  destruct (DumpRequest _ _ w1) as [[dumped err] w2]. cbn [fst snd].
  destruct (rt r req w2) as [[resp rerr] w3].
  unfold dumpTexts. rewrite omap_app. f_equal.
  - destruct err as [e|]; [reflexivity|].
    destruct (isMultipart req w1); reflexivity.
  - destruct rerr as [e|]; [reflexivity|].
    destruct (DumpResponse resp true _) as [[dumped' [err'|]] w5]; reflexivity.
Qed.

(** X10.  [NewTraceLoggingTransport] with a nil transport wraps
    [http.DefaultTransport], with any other transport that transport:
    [RoundTrip] returns what this transport returns for the request;
    and what is done before the transport is called is the same
    whatever the transport. *)
Theorem NewTraceLoggingTransport_delegates {Sink} `{!Printer Sink}
    (t : option RoundTripper) req (s : World * Sink) :
  fst (RoundTrip (NewTraceLoggingTransport t) req s) =
    fst ((match t with Some t => t | None => DefaultTransport end) req
           (fst (beforeTransport (NewTraceLoggingTransport None) req s)))
  /\ beforeTransport (NewTraceLoggingTransport t) req s =
       beforeTransport (NewTraceLoggingTransport None) req s.
Proof.
  split; [|apply beforeTransport_any_transport].
  rewrite RoundTrip_unfold. cbn zeta.
  rewrite (beforeTransport_any_transport _ (NewTraceLoggingTransport None)).
  destruct t as [t|]; cbn [NewTraceLoggingTransport rt].
  - destruct (t req _) as [[resp [err|]] w3]; reflexivity.
  - destruct (DefaultTransport req _) as [[resp [err|]] w3]; reflexivity.
Qed.

End LogShape.

(** ** The dumps of Go on the paths that the claims leave out *)

Section LogElapsed.
Context `{E : Env}.

(** No request-side call carries an elapsed time. *)
Lemma requestLog_no_elapsed r req w :
  omap elapsedArg (requestLog r req w) = [].
Proof.
  rewrite requestLog_cases. cbn zeta.
  destruct (DumpRequest _ _ _) as [[dumped [err|]] w']; [reflexivity|].
  destruct (isMultipart req _); reflexivity.
Qed.

End LogElapsed.

Section GoDumpPaths.

Variable requestHead : GoHTTP.RequestObj -> string.
Variable chunkedWire : string -> string.
Variable Response_Write : GoHTTP.ResponseObj -> string * option GoHTTP.error.
Variable defaultTransport :
  nat -> GoHTTP.World -> (nat * option GoHTTP.error) * GoHTTP.World.
Variable format : GoHTTP.Time -> string -> string.
Variable i18nT : string -> list (string * string) -> string.
Variable headerColor : string -> string.
Variable sanitize : string -> string.

Local Abbreviation goEnv :=
  (GoHTTP.env requestHead chunkedWire Response_Write defaultTransport
     format i18nT headerColor sanitize).

Local Abbreviation multipart r :=
  (Strings.Contains (GoHTTP.Get (GoHTTP.Header r) "Content-Type")
     "multipart/form-data").

(** A stream that cannot be drained: [drainBody] fails with its error
    and hands back the stream, read to its end. *)
Lemma drainBody_error (s : GoHTTP.ReadCloser) e :
  GoHTTP.drainError s = Some e ->
  GoHTTP.drainBody (GoHTTP.Stream s) =
    (GoHTTP.nilBody, GoHTTP.Stream (snd (GoHTTP.ReadFrom s)), Some e).
Proof.
  destruct s as [data [re|] [ce|]]; cbn; intros H; try discriminate;
    injection H as <-; reflexivity.
Qed.

(** The model of [httputil.DumpRequest] does not touch the clock: in
    the model, a dump takes no time. *)
Lemma DumpRequest_clock req body (w : GoHTTP.World) :
  GoHTTP.clock (snd (GoHTTP.DumpRequest requestHead chunkedWire req body w))
  = GoHTTP.clock w.
Proof.
  unfold GoHTTP.DumpRequest.
  destruct (GoHTTP.requests w !! req) as [r|]; [|reflexivity].
  destruct (negb body || GoHTTP.isNil (GoHTTP.Body_ r)).
  - cbn. destruct (GoHTTP.isNil GoHTTP.nilBody); reflexivity.
  - destruct (GoHTTP.drainBody (GoHTTP.Body_ r)) as [[save b] [e|]];
      [reflexivity|].
    destruct (GoHTTP.isNil b); [reflexivity|].
    destruct (GoHTTP.ReadAll b) as [data [e|]];
      destruct (GoHTTP.isChunked r); reflexivity.
Qed.

(** X6.  A request whose body is displayed and cannot be drained: the
    dump fails with the error of the stream (that of [Read] before that
    of [Close]), [dumpRequest] writes the diagnostic line with that
    error and nothing else, and the request is left with its body
    stream read to its end. *)
Theorem dumpRequest_undrainable (r : TraceLoggingTransport (E := goEnv))
    (req : nat) start (w : GoHTTP.World) (log : list (Call (H := goEnv)))
    robj s e :
  GoHTTP.requests w !! req = Some robj ->
  GoHTTP.Body_ robj = GoHTTP.Stream s ->
  multipart robj = false ->
  GoHTTP.drainError s = Some e ->
  dumpRequest (E := goEnv) r req start (w, log) =
    (tt,
     (GoHTTP.setRequests
        (<[req := GoHTTP.setBody (GoHTTP.Stream (snd (GoHTTP.ReadFrom s))) robj]>
           (GoHTTP.requests w)) w,
      log ++ [CallPrintf (i18nT request_error_template [("Error", e)]) []]))
  /\ GoHTTP.ReadAll (GoHTTP.Stream (snd (GoHTTP.ReadFrom s)))
     = ("", GoHTTP.readErr s).
Proof.
  intros Hr Hbody Hm He. split; [|reflexivity].
  rewrite (dumpRequest_unfold (E := goEnv)). cbn zeta.
  unfold isMultipart. cbn [Header_Get DumpRequest GoHTTP.env].
  unfold GoHTTP.Header_Get. rewrite Hr, Hm. cbn [negb].
  unfold GoHTTP.DumpRequest. rewrite Hr, Hbody. cbn [negb orb GoHTTP.isNil].
  rewrite (drainBody_error s e He). reflexivity.
Qed.

(** X7.  A response whose body cannot be drained, after a successful
    transport call: [RoundTrip] still returns the response and a nil
    error, the log gets the diagnostic line with the error of the stream
    after the request-side calls, and the response is left with its body
    stream read to its end. *)
Theorem RoundTrip_response_undrainable (r : TraceLoggingTransport (E := goEnv))
    (req : nat) (w : GoHTTP.World) (log : list (Call (H := goEnv)))
    (resp : nat) w3 respObj s e :
  rt r req (fst (beforeTransport (E := goEnv) r req (w, log)))
    = ((resp, None), w3) ->
  GoHTTP.responses w3 !! resp = Some respObj ->
  GoHTTP.RespBody respObj = GoHTTP.Stream s ->
  GoHTTP.drainError s = Some e ->
  RoundTrip (E := goEnv) r req (w, log) =
    ((resp, None),
     (GoHTTP.setResponses
        (<[resp := GoHTTP.setRespBody (GoHTTP.Stream (snd (GoHTTP.ReadFrom s)))
                     (GoHTTP.ContentLength respObj) respObj]>
           (GoHTTP.responses w3)) w3,
      log ++ requestLog r req w ++
      [CallPrintf (i18nT response_error_template [("Error", e)]) []])).
Proof.
  intros Hrt Hresp Hbody He.
  rewrite (RoundTrip_unfold (E := goEnv)). cbn zeta. rewrite Hrt.
  rewrite (dumpResponse_unfold (E := goEnv)).
  cbn [fst snd time_Now DumpResponse GoHTTP.env GoHTTP.Now].
  unfold GoHTTP.DumpResponse. rewrite Hresp, Hbody.
  cbn [negb GoHTTP.isNil]. rewrite (drainBody_error s e He).
  rewrite (beforeTransport_log (E := goEnv)). cbn [snd].
  cbn [T error_Error Printf RecordingPrinter GoHTTP.env].
  now rewrite <- app_assoc.
Qed.

(** X8.  A response whose body can be drained and that [resp.Write]
    accepts: [dumpResponse] writes the one response trace line, with the
    redacted wire form of the whole response, body included, whatever
    the content type of the request or of the response; it never writes
    the marker line, and it leaves the world as it found it. *)
Theorem dumpResponse_full_dump (r : TraceLoggingTransport (E := goEnv))
    (resp : nat) (start : GoHTTP.Time) (w : GoHTTP.World) (log : list (Call (H := goEnv)))
    respObj text :
  GoHTTP.responses w !! resp = Some respObj ->
  GoHTTP.drainable (GoHTTP.RespBody respObj) = true ->
  Response_Write
    (GoHTTP.setRespBody (GoHTTP.writtenBody (GoHTTP.RespBody respObj))
       (GoHTTP.ContentLength respObj) respObj) = (text, None) ->
  dumpResponse (E := goEnv) r resp start (w, log) =
    (tt,
     (w,
      log ++
      [CallPrintf response_format
         [ArgString (headerColor (i18nT "RESPONSE:" []));
          ArgString (format (GoHTTP.clock w) RFC3339);
          ArgString (headerColor (i18nT "Elapsed:" []));
          @ArgFloat64 goEnv
            (GoHTTP.mul1000 (GoHTTP.Seconds (GoHTTP.Sub (GoHTTP.clock w) start)));
          ArgString (sanitize text)]])).
Proof.
  intros Hresp Hd Hw.
  rewrite (dumpResponse_unfold (E := goEnv)).
  cbn [fst snd time_Now DumpResponse GoHTTP.env GoHTTP.Now].
  unfold GoHTTP.DumpResponse. rewrite Hresp. cbn [negb].
  unfold GoHTTP.writtenBody in Hw.
  destruct (GoHTTP.isNil (GoHTTP.RespBody respObj)) eqn:Hnil.
  - rewrite Hw. rewrite setRespBody_same, setResponses_same by exact Hresp.
    reflexivity.
  - rewrite (drainBody_drainable _ Hd Hnil). rewrite Hw.
    rewrite setRespBody_same, setResponses_same by exact Hresp.
    reflexivity.
Qed.

(** X11.  A response whose body can be drained but that [resp.Write]
    rejects with an error other than the sentinel [errNoBody] (a
    declared length that the body does not have, say): [dumpResponse]
    writes the diagnostic line with that error and nothing else, and
    leaves the world, the response and its body included, as it found
    it. *)
Theorem dumpResponse_write_error (r : TraceLoggingTransport (E := goEnv))
    (resp : nat) (start : GoHTTP.Time) (w : GoHTTP.World)
    (log : list (Call (H := goEnv))) respObj text e :
  GoHTTP.responses w !! resp = Some respObj ->
  GoHTTP.drainable (GoHTTP.RespBody respObj) = true ->
  Response_Write
    (GoHTTP.setRespBody (GoHTTP.writtenBody (GoHTTP.RespBody respObj))
       (GoHTTP.ContentLength respObj) respObj) = (text, Some e) ->
  e <> GoHTTP.errNoBody ->
  dumpResponse (E := goEnv) r resp start (w, log) =
    (tt,
     (w, log ++ [CallPrintf (i18nT response_error_template [("Error", e)]) []])).
Proof.
  intros Hresp Hd Hw Hne.
  apply String.eqb_neq in Hne.
  rewrite (dumpResponse_unfold (E := goEnv)).
  cbn [fst snd time_Now DumpResponse GoHTTP.env GoHTTP.Now].
  unfold GoHTTP.DumpResponse. rewrite Hresp. cbn [negb].
  unfold GoHTTP.writtenBody in Hw.
  destruct (GoHTTP.isNil (GoHTTP.RespBody respObj)) eqn:Hnil.
  - rewrite Hw, Hne. rewrite setRespBody_same, setResponses_same by exact Hresp.
    reflexivity.
  - rewrite (drainBody_drainable _ Hd Hnil). rewrite Hw, Hne.
    rewrite setRespBody_same, setResponses_same by exact Hresp.
    reflexivity.
Qed.

End GoDumpPaths.

(** ** The redaction of the dumps *)

Section StringAppend.

Lemma append_assoc (a b c : string) : (a +:+ b) +:+ c = a +:+ (b +:+ c).
Proof.
  induction a as [|x a IH]; [reflexivity|].
  rewrite !append_cons. now rewrite IH.
Qed.

Lemma length_append (a b : string) :
  String.length (a +:+ b) = String.length a + String.length b.
Proof.
  induction a as [|x a IH]; [reflexivity|].
  rewrite append_cons. cbn [String.length]. now rewrite IH.
Qed.

(** Two ways of cutting the same text in two: the shorter first part is
    a start of the longer. *)
Lemma append_split (a b c d : string) :
  a +:+ b = c +:+ d -> String.length a <= String.length c ->
  exists z, c = a +:+ z /\ b = z +:+ d.
Proof.
  revert c. induction a as [|x a IH]; intros c H Hl.
  - exists c. split; [reflexivity|exact H].
  - destruct c as [|y c]; [cbn in Hl; lia|].
    rewrite !append_cons in H. injection H as -> H.
    cbn [String.length] in Hl.
    destruct (IH c H ltac:(lia)) as (z & -> & ->).
    exists z. split; reflexivity.
Qed.

Lemma HasPrefix_refl (p : string) : Strings.HasPrefix p p = true.
Proof.
  apply HasPrefix_iff. exists "". symmetry.
  induction p as [|c p IH]; [reflexivity|]. rewrite append_cons. now rewrite IH.
Qed.

Lemma HasPrefix_length (s p : string) :
  Strings.HasPrefix s p = true -> String.length p <= String.length s.
Proof.
  intros H. apply HasPrefix_iff in H as [v ->]. rewrite length_append. lia.
Qed.

Lemma HasPrefix_append (s t p : string) :
  Strings.HasPrefix s p = true -> Strings.HasPrefix (s +:+ t) p = true.
Proof.
  intros H. apply HasPrefix_iff in H as [v ->]. apply HasPrefix_iff.
  exists (v +:+ t). apply append_assoc.
Qed.

Lemma HasPrefix_truncate (s t p : string) :
  Strings.HasPrefix (s +:+ t) p = true -> String.length p <= String.length s ->
  Strings.HasPrefix s p = true.
Proof.
  intros H Hl. apply HasPrefix_iff in H as [v Hv]. symmetry in Hv.
  destruct (append_split p v s t Hv Hl) as (z & -> & _).
  apply HasPrefix_iff. now exists z.
Qed.

(** A text ends with what has been appended to it. *)
Lemma Contains_append_r (u p : string) : Strings.Contains (u +:+ p) p = true.
Proof.
  induction u as [|c u IH].
  - rewrite append_nil_l. pose proof (HasPrefix_refl p) as H.
    destruct p; cbn [Strings.Contains]; now rewrite H.
  - rewrite append_cons, Contains_cons, IH. apply orb_true_r.
Qed.

End StringAppend.

Section Redaction.
Variable sensitive : list string.

Local Abbreviation longest := (Trace.longestMatch sensitive).
Local Abbreviation redact := (Trace.redact sensitive).

(** [longestMatch] is at least the length of every sensitive text that
    the text starts with, and is the length of one of them when it is
    not 0. *)
Lemma longestMatch_ge (s p : string) :
  In p sensitive -> Strings.HasPrefix s p = true ->
  String.length p <= longest s.
Proof.
  unfold Trace.longestMatch. induction sensitive as [|q l IH]; [intros []|].
  intros [->|Hin] Hp; cbn [fold_right].
  - rewrite Hp. lia.
  - specialize (IH Hin Hp). destruct (Strings.HasPrefix s q); lia.
Qed.

Lemma longestMatch_witness (s : string) n :
  longest s = S n ->
  exists p, In p sensitive /\ Strings.HasPrefix s p = true
            /\ String.length p = S n.
Proof.
  unfold Trace.longestMatch. revert n.
  induction sensitive as [|q l IH]; intros n; cbn [fold_right]; [discriminate|].
  destruct (Strings.HasPrefix s q) eqn:Hq.
  - intros H. set (m0 := fold_right _ 0 l) in *.
    destruct (Nat.max_spec_le (String.length q) m0) as [[Hle Hm]|[Hle Hm]];
      rewrite Hm in H.
    + destruct (IH n H) as (p & Hin & Hp & Hl). exists p. auto using in_cons.
    + exists q. split; [now left|]. auto.
  - intros H. destruct (IH n H) as (p & Hin & Hp & Hl).
    exists p. auto using in_cons.
Qed.

Lemma longestMatch_length (s : string) : longest s <= String.length s.
Proof.
  destruct (longest s) as [|n] eqn:H; [lia|].
  destruct (longestMatch_witness s n H) as (p & _ & Hp & <-).
  now apply HasPrefix_length.
Qed.

Lemma longestMatch_append (s t : string) : longest s <= longest (s +:+ t).
Proof.
  destruct (longest s) as [|n] eqn:H; [lia|].
  destruct (longestMatch_witness s n H) as (p & Hin & Hp & <-).
  apply longestMatch_ge; [exact Hin|]. now apply HasPrefix_append.
Qed.

(** A match that ends within the first part of a text is found in the
    first part alone. *)
Lemma longestMatch_truncate (s t : string) :
  longest (s +:+ t) <= String.length s -> longest s = longest (s +:+ t).
Proof.
  intros Hl. apply Nat.le_antisymm; [apply longestMatch_append|].
  destruct (longest (s +:+ t)) as [|n] eqn:H; [lia|].
  destruct (longestMatch_witness _ n H) as (p & Hin & Hp & Hlen).
  rewrite <- Hlen. apply longestMatch_ge; [exact Hin|].
  apply (HasPrefix_truncate s t p Hp). lia.
Qed.

Lemma redact_nil k : redact k "" = "".
Proof. destruct k; reflexivity. Qed.

Lemma redact_hidden k c s :
  redact (S k) (String c s) = redact (Nat.max k (longest (String c s) - 1)) s.
Proof. reflexivity. Qed.

Lemma redact_copy c s :
  longest (String c s) = 0 -> redact 0 (String c s) = String c (redact 0 s).
Proof. intros H. cbn [Trace.redact]. now rewrite H. Qed.

Lemma redact_match c s n :
  longest (String c s) = S n ->
  redact 0 (String c s) = Trace.privateDataPlaceholder +:+ redact n s.
Proof. intros H. cbn [Trace.redact]. now rewrite H. Qed.

(** The end of a hidden part.  Scanning [s] with [k] characters still
    covered hides a first part [y] of [s], at least [k] characters long
    if [s] is, and goes on with the rest [s2] as with a fresh text.  A
    sensitive text that starts in [y] ends in [y]; and the scan hides
    [y] in the same way when only a first part of [s2] follows it. *)
Lemma redact_run (s : string) : forall k,
  exists y s2,
    s = y +:+ s2
    /\ redact k s = redact 0 s2
    /\ Nat.min k (String.length s) <= String.length y
    /\ (forall u p v, s = u +:+ p +:+ v -> In p sensitive ->
          String.length u < String.length y ->
          String.length u + String.length p <= String.length y)
    /\ (forall a rest, s2 = a +:+ rest -> redact k (y +:+ a) = redact 0 a).
Proof.
  induction s as [|c s IH]; intros k.
  - exists "", "". split; [reflexivity|]. split; [reflexivity|].
    split; [cbn; lia|]. split; [cbn; intros; lia|].
    intros a rest H. destruct a; [|discriminate]. now rewrite !redact_nil.
  - destruct k as [|k].
    + exists "", (String c s). split; [reflexivity|]. split; [reflexivity|].
      split; [cbn; lia|]. split; [cbn; intros; lia|]. reflexivity.
    + set (m := longest (String c s)).
      destruct (IH (Nat.max k (m - 1))) as (y & s2 & Hs & Hr & Hl & Hc & Hst).
      assert (Hm : m - 1 <= String.length y).
      { pose proof (longestMatch_length (String c s)) as H. fold m in H.
        cbn [String.length] in H. lia. }
      exists (String c y), s2. split; [|split; [|split; [|split]]].
      * rewrite append_cons. now rewrite <- Hs.
      * rewrite redact_hidden. exact Hr.
      * cbn [String.length]. lia.
      * intros u p v Hu Hin Hlt. destruct u as [|c' u].
        -- rewrite append_nil_l in Hu.
           assert (Hp : Strings.HasPrefix (String c s) p = true)
             by (apply HasPrefix_iff; now exists v).
           pose proof (longestMatch_ge _ _ Hin Hp) as Hle. fold m in Hle.
           cbn [String.length]. lia.
        -- rewrite append_cons in Hu. injection Hu as <- Hu.
           cbn [String.length] in *.
           specialize (Hc u p v Hu Hin). lia.
      * intros a rest Ha. rewrite append_cons, redact_hidden.
        assert (Hma : longest (String c (y +:+ a)) = m).
        { assert (He : String c s = String c (y +:+ a) +:+ rest)
            by (rewrite Hs, Ha, append_cons, append_assoc; reflexivity).
          unfold m. rewrite He. apply longestMatch_truncate.
          rewrite <- He. fold m. cbn [String.length].
          rewrite length_append. lia. }
        rewrite Hma. now apply Hst with rest.
Qed.

(** Every occurrence of a sensitive text lies in a part of the text in
    whose place the placeholder is written: the text is [u'], the hidden
    part [x +:+ p +:+ y], and [v'], and is written as the redaction of
    [u'], the placeholder, and the redaction of [v']. *)
Lemma redact_occurrence_bounded : forall n s, String.length s <= n ->
  forall u p v, s = u +:+ p +:+ v -> In p sensitive -> p <> "" ->
  exists u' x y v',
    u = u' +:+ x /\ v = y +:+ v'
    /\ redact 0 s =
       redact 0 u' +:+ Trace.privateDataPlaceholder +:+ redact 0 v'.
Proof.
  induction n as [|n IH]; intros s Hn u p v Hs Hin Hne.
  - destruct s; [|cbn in Hn; lia].
    destruct u; [|discriminate]. destruct p; [congruence|discriminate].
  - destruct s as [|c s].
    { destruct u; [|discriminate]. destruct p; [congruence|discriminate]. }
    cbn [String.length] in Hn.
    destruct (longest (String c s)) as [|m] eqn:Hm.
    + (* no match starts here: the character is copied *)
      destruct u as [|c' u].
      { rewrite append_nil_l in Hs.
        assert (Hp : Strings.HasPrefix (String c s) p = true)
          by (apply HasPrefix_iff; now exists v).
        pose proof (longestMatch_ge _ _ Hin Hp) as Hle.
        destruct p; [congruence|]. cbn [String.length] in Hle. lia. }
      rewrite append_cons in Hs. injection Hs as <- Hs.
      destruct (IH s ltac:(lia) u p v Hs Hin Hne)
        as (u' & x & y & v' & -> & -> & Hr).
      exists (String c u'), x, y, v'. split; [reflexivity|]. split; [reflexivity|].
      rewrite (redact_copy c s Hm), Hr.
      rewrite (redact_copy c u'); [reflexivity|].
      pose proof (longestMatch_append (String c u') (x +:+ p +:+ y +:+ v')) as H.
      assert (He : String c s = String c u' +:+ (x +:+ p +:+ y +:+ v'))
        by (rewrite Hs, append_cons, !append_assoc; reflexivity).
      rewrite <- He, Hm in H. lia.
    + (* a match starts here *)
      rewrite (redact_match c s m Hm).
      destruct (redact_run s m) as (y' & s2 & Hy & Hr & Hl & Hc & Hst).
      assert (Hmy : m <= String.length y').
      { pose proof (longestMatch_length (String c s)) as H. rewrite Hm in H.
        cbn [String.length] in H. lia. }
      destruct (Nat.lt_ge_cases (String.length u) (S (String.length y')))
        as [Hin_run|Hafter].
      * (* the occurrence starts in the hidden part *)
        assert (Hend : String.length (u +:+ p) <= String.length (String c y')).
        { rewrite length_append. cbn [String.length].
          destruct u as [|c' u].
          - rewrite append_nil_l in Hs.
            assert (Hp : Strings.HasPrefix (String c s) p = true)
              by (apply HasPrefix_iff; now exists v).
            pose proof (longestMatch_ge _ _ Hin Hp) as Hle. rewrite Hm in Hle.
            cbn [String.length]. lia.
          - rewrite append_cons in Hs. injection Hs as <- Hs.
            cbn [String.length] in *.
            specialize (Hc u p v Hs Hin). lia. }
        assert (Hs' : (u +:+ p) +:+ v = String c y' +:+ s2).
        { rewrite append_assoc, <- Hs, append_cons. now rewrite <- Hy. }
        destruct (append_split _ _ _ _ Hs' Hend) as (z & Hz & ->).
        exists "", u, z, s2. split; [reflexivity|]. split; [reflexivity|].
        rewrite Hr. reflexivity.
      * (* the occurrence starts after the hidden part *)
        assert (Hs' : String c y' +:+ s2 = u +:+ (p +:+ v)).
        { rewrite <- Hs, append_cons. now rewrite <- Hy. }
        destruct (append_split _ _ _ _ Hs' ltac:(cbn [String.length]; lia))
          as (u2 & -> & Hs2).
        assert (Hlen2 : String.length s2 <= n).
        { rewrite Hy, length_append in Hn. lia. }
        destruct (IH s2 Hlen2 u2 p v Hs2 Hin Hne)
          as (u' & x & y & v' & -> & -> & Hr2).
        exists (String c y' +:+ u'), x, y, v'.
        split; [now rewrite append_assoc|]. split; [reflexivity|].
        rewrite Hr, Hr2.
        rewrite append_cons.
        assert (Hmu : longest (String c (y' +:+ u')) = S m).
        { assert (He : String c s =
                         String c (y' +:+ u') +:+ (x +:+ p +:+ y +:+ v'))
            by (rewrite Hy, Hs2, append_cons, !append_assoc; reflexivity).
          rewrite <- Hm, He. apply longestMatch_truncate.
          rewrite <- He, Hm. cbn [String.length].
          rewrite length_append. lia. }
        rewrite (redact_match c _ m Hmu).
        rewrite (Hst u' (x +:+ p +:+ y +:+ v')) by (now rewrite Hs2, !append_assoc).
        now rewrite !append_assoc.
Qed.

(** A text in which no sensitive text occurs is left as it is. *)
Lemma redact_clean (s : string) :
  (forall p, In p sensitive -> p <> "" -> Strings.Contains s p = false) ->
  redact 0 s = s.
Proof.
  induction s as [|c s IH]; intros H; [reflexivity|].
  assert (Hm : longest (String c s) = 0).
  { destruct (longest (String c s)) as [|n] eqn:Hm; [reflexivity|].
    destruct (longestMatch_witness _ n Hm) as (p & Hin & Hp & Hlen).
    assert (Hne : p <> "") by (intros ->; discriminate).
    specialize (H p Hin Hne). rewrite Contains_cons, Hp in H. discriminate. }
  rewrite (redact_copy c s Hm). f_equal. apply IH.
  intros p Hin Hne. specialize (H p Hin Hne).
  rewrite Contains_cons in H. now apply orb_false_elim in H as [_ H].
Qed.

(** A bracket-free start of the redacted text is a start of the text. *)
Lemma redact_prefix (p s : string) :
  Trace.forallb_string Trace.notBracket p = true ->
  Strings.HasPrefix (redact 0 s) p = true ->
  Strings.HasPrefix s p = true.
Proof.
  revert s. induction p as [|a p IH]; intros s Hp H; [reflexivity|].
  destruct s as [|c s]; [discriminate H|].
  cbn [Trace.forallb_string] in Hp. apply andb_prop in Hp as [Ha Hp].
  destruct (longest (String c s)) as [|n] eqn:Hm.
  - rewrite (redact_copy _ _ Hm) in H. cbn [Strings.HasPrefix] in *.
    destruct (Ascii.eqb c a); [|discriminate]. now apply IH.
  - rewrite (redact_match _ _ _ Hm) in H.
    change (Trace.privateDataPlaceholder +:+ ?x)
      with (String "[" (Trace.placeholderWords +:+ String "]" x)) in H.
    cbn [Strings.HasPrefix] in H.
    destruct (Ascii.eqb "[" a) eqn:Hb; [|discriminate].
    apply Ascii.eqb_eq in Hb as <-. discriminate.
Qed.

Lemma plain_elim (p : string) :
  Trace.plain p = true ->
  p <> "" /\ Trace.forallb_string Trace.notBracket p = true
  /\ Strings.Contains Trace.placeholderWords p = false.
Proof.
  unfold Trace.plain. intros H. apply andb_prop in H as [H H3].
  apply andb_prop in H as [H1 H2]. repeat split.
  - intros ->. discriminate.
  - exact H2.
  - now apply negb_true_iff.
Qed.

Lemma HasPrefix_bracket (c : ascii) (x p : string) :
  Trace.notBracket c = false -> p <> "" ->
  Trace.forallb_string Trace.notBracket p = true ->
  Strings.HasPrefix (String c x) p = false.
Proof.
  intros Hc Hne Hp. destruct p as [|a p]; [congruence|].
  cbn [Strings.HasPrefix Trace.forallb_string] in *.
  destruct (Ascii.eqb c a) eqn:Hca; [|reflexivity].
  apply Ascii.eqb_eq in Hca as ->. rewrite Hc in Hp. discriminate.
Qed.

(** A plain text that does not occur in [x] does not occur in the
    placeholder followed by [x]. *)
Lemma Contains_placeholder (x p : string) :
  Trace.plain p = true ->
  Strings.Contains x p = false ->
  Strings.Contains (Trace.privateDataPlaceholder +:+ x) p = false.
Proof.
  intros Hplain Hx. apply plain_elim in Hplain as (Hne & Hp & Hw).
  change (Trace.privateDataPlaceholder +:+ x)
    with (String "[" (Trace.placeholderWords +:+ String "]" x)).
  rewrite Contains_cons. apply orb_false_intro.
  - now apply HasPrefix_bracket.
  - apply Contains_before_bracket; try assumption.
    rewrite Contains_cons. apply orb_false_intro; [|exact Hx].
    now apply HasPrefix_bracket.
Qed.

(** A plain sensitive text does not occur in the redacted text. *)
Lemma redact_hides (p : string) :
  In p sensitive -> Trace.plain p = true ->
  forall s k, Strings.Contains (redact k s) p = false.
Proof.
  intros Hin Hplain.
  destruct (plain_elim p Hplain) as (Hne & Hp & _).
  induction s as [|c s IH]; intros k.
  - rewrite redact_nil. now apply Contains_empty_l.
  - destruct k as [|k]; [|rewrite redact_hidden; apply IH].
    destruct (longest (String c s)) as [|n] eqn:Hm.
    + pose proof (redact_copy _ _ Hm) as Hcopy. rewrite Hcopy.
      rewrite Contains_cons. apply orb_false_intro; [|apply IH].
      rewrite <- Hcopy.
      destruct (Strings.HasPrefix (redact 0 (String c s)) p) eqn:H;
        [|reflexivity].
      apply redact_prefix in H; [|exact Hp].
      pose proof (longestMatch_ge _ _ Hin H) as Hle. rewrite Hm in Hle.
      destruct p; [congruence|]. cbn [String.length] in Hle. lia.
    + rewrite (redact_match _ _ _ Hm). now apply Contains_placeholder.
Qed.

End Redaction.

Section RedactedDumps.
Context `{E : Env}.

(** C3.  With the redaction function of the specification over a list
    of sensitive texts: the dump texts that [RoundTrip] writes are the
    redactions of the very bytes that [httputil.DumpRequest] and
    [httputil.DumpResponse] have returned, in this order; and of every
    text [raw], the redaction is this.  If no sensitive text occurs in
    [raw], it is [raw].  For every occurrence of a sensitive text [p] in
    [raw], [raw] is a text [u'], a hidden part that contains the
    occurrence, and a text [v'], and [raw] is written as the redaction
    of [u'], the placeholder in the place of the hidden part, and the
    redaction of [v']: no character of the occurrence is written.  And
    no sensitive text occurs anywhere in what is written, unless it is
    made of the placeholder's own characters (it has a square bracket or
    is a part of the words of the placeholder). *)
Theorem dumps_redacted (sensitive : list string) r req w :
  (forall s, Sanitize s = Trace.Sanitize sensitive s) ->
  dumpTexts (roundTripLog r req w) =
    List.map (Trace.Sanitize sensitive) (rawDumps r req w)
  /\ forall raw,
       ((forall p, In p sensitive -> p <> "" -> Strings.Contains raw p = false) ->
        Trace.Sanitize sensitive raw = raw)
       /\ (forall u p v,
             raw = u +:+ p +:+ v -> In p sensitive -> p <> "" ->
             exists u' x y v',
               u = u' +:+ x /\ v = y +:+ v'
               /\ Trace.Sanitize sensitive raw =
                  Trace.Sanitize sensitive u' +:+ Trace.privateDataPlaceholder
                  +:+ Trace.Sanitize sensitive v')
       /\ (forall p, In p sensitive -> Trace.plain p = true ->
             Strings.Contains (Trace.Sanitize sensitive raw) p = false).
Proof.
  intros HS. split.
  - rewrite roundTripLog_cases, requestLog_cases. unfold rawDumps. cbn zeta.
    unfold beforeTransport. cbn [fst snd].
    destruct (time_Now w) as [start w1]. cbn [fst snd].
    rewrite dumpRequest_unfold. cbn zeta.
    destruct (DumpRequest _ _ w1) as [[dumped err] w2]. cbn [fst snd].
    destruct (rt r req w2) as [[resp rerr] w3].
    unfold dumpTexts. rewrite omap_app, map_app. f_equal.
    + destruct err as [e|]; [reflexivity|].
      destruct (isMultipart req w1); cbn; now rewrite HS.
    + destruct rerr as [e|]; [reflexivity|].
      destruct (DumpResponse resp true _) as [[dumped' [err'|]] w5];
        [reflexivity|]. cbn. now rewrite HS.
  - intros raw. split; [|split].
    + apply redact_clean.
    + intros u p v Hraw Hin Hne.
      exact (redact_occurrence_bounded sensitive (String.length raw) raw
               (Nat.le_refl _) u p v Hraw Hin Hne).
    + intros p Hin Hp. now apply redact_hides.
Qed.

End RedactedDumps.

(** ** The arithmetic of [float64] *)

Section Float64Facts.
Local Open Scope Q_scope.

(** [roundEven q] is an integer nearest to [q]. *)
Lemma roundEven_error (q : Q) :
  inject_Z (Float64.roundEven q) - (1 # 2) <= q
  /\ q <= inject_Z (Float64.roundEven q) + (1 # 2).
Proof.
  unfold Float64.roundEven.
  pose proof (Qfloor_le q) as Hlo. pose proof (Qlt_floor q) as Hhi.
  rewrite inject_Z_plus in Hhi. change (inject_Z 1) with 1 in Hhi.
  destruct (Qcompare_spec (q - inject_Z (Qfloor q)) (1 # 2)) as [H|H|H];
    [destruct (Z.even (Qfloor q))|..];
    rewrite ?inject_Z_plus; change (inject_Z 1) with 1; split; lra.
Qed.

Lemma roundEven_nonneg (q : Q) : 0 <= q -> (0 <= Float64.roundEven q)%Z.
Proof.
  intros Hq. unfold Float64.roundEven.
  assert (H : (0 <= Qfloor q)%Z).
  { change 0%Z with (Qfloor 0). now apply Qfloor_resp_le. }
  destruct (Qcompare _ _); [destruct (Z.even _)|..]; lia.
Qed.

Lemma pow2_pos (e : Z) : 0 < 2 ^ e.
Proof. apply Qpower_0_lt. reflexivity. Qed.

Lemma pow2_of_Z (k : Z) : (0 <= k)%Z -> inject_Z (2 ^ k) == 2 ^ k.
Proof. intros H. now rewrite Zpower_Qpower. Qed.

(** The exponent of a positive number is not above it. *)
Lemma exponent_le (q : Q) : 0 < q -> 2 ^ Float64.exponent q <= q.
Proof.
  intros Hq. unfold Float64.exponent.
  set (a := Z.log2 (Qnum q)). set (b := Z.log2 (Zpos (Qden q))).
  destruct (Qle_bool (2 ^ (a - b)) q) eqn:Hb; [now apply Qle_bool_iff|].
  destruct q as [n d]. cbn [Qnum Qden] in *.
  assert (Hn : (0 < n)%Z) by (unfold Qlt in Hq; cbn in Hq; lia).
  assert (Ha : (2 ^ a <= n)%Z) by (apply Z.log2_spec; exact Hn).
  assert (Hd : (Zpos d < 2 ^ (b + 1))%Z).
  { replace (b + 1)%Z with (Z.succ b) by lia. apply Z.log2_spec. lia. }
  assert (H0a : (0 <= a)%Z) by apply Z.log2_nonneg.
  assert (H0b : (0 <= b)%Z) by apply Z.log2_nonneg.
  replace (a - b - 1)%Z with (a - (b + 1))%Z by lia.
  rewrite Qpower_minus by discriminate.
  rewrite <- (pow2_of_Z a), <- (pow2_of_Z (b + 1)) by lia.
  rewrite (Qmake_Qdiv n d).
  rewrite Zle_Qle in Ha. rewrite Zlt_Qlt in Hd.
  assert (Hpb : 0 < inject_Z (2 ^ (b + 1))).
  { rewrite pow2_of_Z by lia. apply pow2_pos. }
  assert (Hpa : 0 < inject_Z (2 ^ a)).
  { rewrite pow2_of_Z by lia. apply pow2_pos. }
  assert (Hpd : 0 < inject_Z (Zpos d)) by reflexivity.
  apply Qle_shift_div_r; [exact Hpb|].
  unfold Qdiv. rewrite <- Qmult_assoc, (Qmult_comm (/ _)), Qmult_assoc.
  apply Qle_shift_div_l; [exact Hpd|].
  nra.
Qed.

(** The next power of two is above it: scaled by [2^(52-e)], a positive
    number lies between [2^52] and [2^53], and [roundPos] keeps 53
    bits of it. *)
Lemma exponent_gt (q : Q) : 0 < q -> q < 2 ^ (Float64.exponent q + 1).
Proof.
  intros Hq. unfold Float64.exponent.
  set (a := Z.log2 (Qnum q)). set (b := Z.log2 (Zpos (Qden q))).
  destruct (Qle_bool (2 ^ (a - b)) q) eqn:Hb.
  - destruct q as [n d]. cbn [Qnum Qden] in *.
    assert (Hn : (0 < n)%Z) by (unfold Qlt in Hq; cbn in Hq; lia).
    assert (Ha : (n < 2 ^ (a + 1))%Z).
    { replace (a + 1)%Z with (Z.succ a) by lia. apply Z.log2_spec. exact Hn. }
    assert (Hd : (2 ^ b <= Zpos d)%Z) by (apply Z.log2_spec; lia).
    assert (H0a : (0 <= a)%Z) by apply Z.log2_nonneg.
    assert (H0b : (0 <= b)%Z) by apply Z.log2_nonneg.
    replace (a - b + 1)%Z with (a + 1 - b)%Z by lia.
    rewrite Qpower_minus by discriminate.
    rewrite <- (pow2_of_Z (a + 1)), <- (pow2_of_Z b) by lia.
    rewrite (Qmake_Qdiv n d).
    rewrite Zlt_Qlt in Ha, Hn. rewrite Zle_Qle in Hd.
    assert (Hpb : 0 < inject_Z (2 ^ b)).
    { rewrite pow2_of_Z by lia. apply pow2_pos. }
    assert (Hpd : 0 < inject_Z (Zpos d)) by reflexivity.
    apply Qlt_shift_div_r; [exact Hpd|].
    unfold Qdiv. rewrite <- Qmult_assoc, (Qmult_comm (/ _)), Qmult_assoc.
    apply Qlt_shift_div_l; [exact Hpb|].
    change (inject_Z 0) with 0 in Hn. nra.
  - replace (a - b - 1 + 1)%Z with (a - b)%Z by lia.
    apply Qnot_le_lt. intros H. apply Qle_bool_iff in H. congruence.
Qed.

(** Rounding to 53 bits changes a positive number by at most the unit
    round-off times the number. *)
Lemma roundPos_error (q : Q) :
  0 < q ->
  q - q * Float64.unitRoundoff <= Float64.roundPos q
  /\ Float64.roundPos q <= q + q * Float64.unitRoundoff.
Proof.
  intros Hq. unfold Float64.roundPos. rewrite Qred_correct.
  set (e := Float64.exponent q).
  pose proof (exponent_le q Hq) as He. fold e in He.
  pose proof (roundEven_error (q * 2 ^ (52 - e))) as [Hlo Hhi].
  set (m := inject_Z (Float64.roundEven (q * 2 ^ (52 - e)))) in *.
  assert (Hp : 2 ^ (52 - e) * 2 ^ (e - 52) == 1).
  { rewrite <- Qpower_plus by discriminate.
    replace (52 - e + (e - 52))%Z with 0%Z by lia. reflexivity. }
  assert (Hh : 2 ^ (e - 52) == 2 ^ e * (1 # 4503599627370496)).
  { unfold Zminus. rewrite Qpower_plus by discriminate. reflexivity. }
  pose proof (pow2_pos (e - 52)) as Hpos.
  pose proof (pow2_pos (52 - e)) as Hpos'.
  set (s := 2 ^ (e - 52)) in *. set (s' := 2 ^ (52 - e)) in *.
  set (pe := 2 ^ e) in *.
  assert (H1 : (m - (1 # 2)) * s <= q * s' * s) by nra.
  assert (H2 : q * s' * s <= (m + (1 # 2)) * s) by nra.
  assert (H3 : q * s' * s == q) by (rewrite <- Qmult_assoc, Hp; ring).
  rewrite H3 in H1, H2. unfold Float64.unitRoundoff.
  split; nra.
Qed.

Lemma round_error (q : Q) :
  0 <= q ->
  q - q * Float64.unitRoundoff <= Float64.round q
  /\ Float64.round q <= q + q * Float64.unitRoundoff.
Proof.
  intros Hq. unfold Float64.round.
  destruct (Qcompare_spec q 0) as [H|H|H].
  - unfold Float64.unitRoundoff. split; lra.
  - lra.
  - now apply roundPos_error.
Qed.

Lemma round_nonneg (q : Q) : 0 <= q -> 0 <= Float64.round q.
Proof.
  intros Hq. destruct (round_error q Hq) as [H _].
  unfold Float64.unitRoundoff in H. nra.
Qed.

(** The elapsed time in milliseconds, computed in [float64] from a
    duration of at most thirty days, is off the exact number of
    milliseconds by less than a nanosecond. *)
Lemma elapsed_error (d : Z) :
  (0 <= d <= GoHTTP.thirtyDays)%Z ->
  0 <= GoHTTP.mul1000 (GoHTTP.Seconds d)
  /\ inject_Z d - 1 < GoHTTP.mul1000 (GoHTTP.Seconds d) * 1000000
  /\ GoHTTP.mul1000 (GoHTTP.Seconds d) * 1000000 < inject_Z d + 1.
Proof.
  intros Hd. unfold GoHTTP.thirtyDays in Hd.
  unfold GoHTTP.mul1000, GoHTTP.Seconds, Float64.add,
    Float64.mul, Float64.div, GoHTTP.float64_of_int64.
  rewrite Z.quot_div_nonneg, Z.rem_mod_nonneg by lia.
  set (sec := (d / 1000000000)%Z). set (nsec := (d mod 1000000000)%Z).
  assert (Hsec : (0 <= sec <= 2592000)%Z).
  { unfold sec. split; [apply Z.div_pos; lia|].
    apply Z.div_le_upper_bound; lia. }
  assert (Hnsec : (0 <= nsec < 1000000000)%Z)
    by (apply Z.mod_pos_bound; lia).
  assert (Hdq : inject_Z d == inject_Z sec * 1000000000 + inject_Z nsec).
  { rewrite (Z.div_mod d 1000000000) at 1 by lia. fold sec nsec.
    rewrite inject_Z_plus, inject_Z_mult. ring. }
  change (Float64.round (inject_Z 1000000000)) with (1000000000 : Q).
  change (Float64.round (inject_Z 1000)) with (1000 : Q).
  assert (Hs0 : 0 <= inject_Z sec) by (rewrite <- (Zle_Qle 0); lia).
  assert (Hs1 : inject_Z sec <= 2592000) by (rewrite <- (Zle_Qle _ 2592000); lia).
  assert (Hn0 : 0 <= inject_Z nsec) by (rewrite <- (Zle_Qle 0); lia).
  assert (Hn1 : inject_Z nsec <= 1000000000)
    by (rewrite <- (Zle_Qle _ 1000000000); lia).
  destruct (round_error _ Hs0) as [Ha1 Ha2].
  pose proof (round_nonneg _ Hs0) as Ha0.
  set (a := Float64.round (inject_Z sec)) in *.
  destruct (round_error _ Hn0) as [Hb1 Hb2].
  pose proof (round_nonneg _ Hn0) as Hb0.
  set (b := Float64.round (inject_Z nsec)) in *.
  assert (Hbc : 0 <= b / 1000000000)
    by (apply Qle_shift_div_l; [reflexivity|lra]).
  assert (Hbe : b / 1000000000 * 1000000000 == b) by (field; discriminate).
  destruct (round_error _ Hbc) as [Hq1 Hq2].
  pose proof (round_nonneg _ Hbc) as Hq0.
  set (q := Float64.round (b / 1000000000)) in *.
  set (bc := b / 1000000000) in *.
  assert (Haq : 0 <= a + q) by lra.
  destruct (round_error _ Haq) as [Hs1' Hs2'].
  pose proof (round_nonneg _ Haq) as Hs0'.
  set (s := Float64.round (a + q)) in *.
  assert (Hsk : 0 <= s * 1000) by lra.
  destruct (round_error _ Hsk) as [Hx1 Hx2].
  pose proof (round_nonneg _ Hsk) as Hx0.
  set (x := Float64.round (s * 1000)) in *.
  unfold Float64.unitRoundoff in *.
  split; [exact Hx0|]. rewrite Hdq. split; lra.
Qed.

(** Rounded to an integer, it is a whole number of milliseconds nearest
    to the duration. *)
Lemma elapsed_nearest (d : Z) :
  (0 <= d <= GoHTTP.thirtyDays)%Z ->
  (0 <= Float64.roundEven (GoHTTP.mul1000 (GoHTTP.Seconds d)))%Z
  /\ (Z.abs (Float64.roundEven (GoHTTP.mul1000 (GoHTTP.Seconds d)) * 1000000 - d)
      <= 500000)%Z.
Proof.
  intros Hd. destruct (elapsed_error d Hd) as (Hx0 & Hlo & Hhi).
  set (x := GoHTTP.mul1000 (GoHTTP.Seconds d)) in *.
  split; [now apply roundEven_nonneg|].
  destruct (roundEven_error x) as [Hn1 Hn2].
  set (n := Float64.roundEven x) in *.
  assert (H1 : inject_Z (n * 1000000) < inject_Z (d + 500001)).
  { rewrite inject_Z_plus, inject_Z_mult.
    change (inject_Z 1000000) with 1000000.
    change (inject_Z 500001) with 500001. lra. }
  assert (H2 : inject_Z d < inject_Z (n * 1000000 + 500001)).
  { rewrite inject_Z_plus, inject_Z_mult.
    change (inject_Z 1000000) with 1000000.
    change (inject_Z 500001) with 500001. lra. }
  rewrite <- Zlt_Qlt in H1, H2. lia.
Qed.

(** What [%.0f] prints for a value that is not negative. *)
Lemma f0_nonneg (x : Q) : 0 <= x -> Fmt.f0 x = Fmt.decimal (Float64.roundEven x).
Proof.
  intros Hx. unfold Fmt.f0. apply Qle_bool_iff in Hx. now rewrite Hx.
Qed.

End Float64Facts.

(** ** What Go's dump functions and Go's clock make of the claims *)

Section GoClaims.

Variable requestHead : GoHTTP.RequestObj -> string.
Variable chunkedWire : string -> string.
Variable Response_Write : GoHTTP.ResponseObj -> string * option GoHTTP.error.
Variable defaultTransport :
  nat -> GoHTTP.World -> (nat * option GoHTTP.error) * GoHTTP.World.
Variable format : GoHTTP.Time -> string -> string.
Variable i18nT : string -> list (string * string) -> string.
Variable headerColor : string -> string.
Variable sanitize : string -> string.

Local Abbreviation goEnv :=
  (GoHTTP.env requestHead chunkedWire Response_Write defaultTransport
     format i18nT headerColor sanitize).

(** The first value that the header map of [r] holds under the key
    [Content-Type], spelled so, and the empty text if it holds none. *)
Local Abbreviation storedContentType r :=
  (match GoHTTP.Header r !! "Content-Type" with
   | Some (v :: _) => v
   | _ => ""
   end).

(** A stream without an error is drained into a reader of its bytes. *)
Lemma drainBody_stream (s : GoHTTP.ReadCloser) :
  GoHTTP.drainError s = None ->
  GoHTTP.drainBody (GoHTTP.Stream s) =
    (GoHTTP.Stream (GoHTTP.bytesReader (GoHTTP.unread s)),
     GoHTTP.Stream (GoHTTP.bytesReader (GoHTTP.unread s)), None).
Proof.
  destruct s as [data [re|] [ce|]]; cbn; intros H; try discriminate; reflexivity.
Qed.

Lemma not_drainable_error (s : GoHTTP.ReadCloser) :
  GoHTTP.drainable (GoHTTP.Stream s) = false ->
  exists e, GoHTTP.drainError s = Some e.
Proof.
  destruct s as [data [re|] [ce|]]; cbn; intros H; try discriminate; eauto.
Qed.

(** [httputil.DumpRequest] fails on an allocated request only when it
    has to display a body stream whose draining fails; the error is that
    of the stream, and the request is left with the stream read to its
    end. *)
Lemma DumpRequest_error req body (w : GoHTTP.World) robj dumped e w2 :
  GoHTTP.requests w !! req = Some robj ->
  GoHTTP.DumpRequest requestHead chunkedWire req body w = ((dumped, Some e), w2) ->
  body = true
  /\ exists s,
       GoHTTP.Body_ robj = GoHTTP.Stream s
       /\ GoHTTP.drainError s = Some e
       /\ w2 = GoHTTP.setRequests
                 (<[req := GoHTTP.setBody
                             (GoHTTP.Stream (snd (GoHTTP.ReadFrom s))) robj]>
                    (GoHTTP.requests w)) w.
Proof.
  intros Hr Hd. unfold GoHTTP.DumpRequest in Hd. rewrite Hr in Hd.
  destruct body; cbn [negb orb] in Hd; [|cbn in Hd; discriminate].
  split; [reflexivity|].
  destruct (GoHTTP.Body_ robj) as [| |s] eqn:Hb.
  - cbn in Hd. discriminate.
  - cbn in Hd. destruct (GoHTTP.isChunked robj); discriminate.
  - exists s. split; [reflexivity|]. cbn [GoHTTP.isNil] in Hd.
    destruct (GoHTTP.drainError s) as [e'|] eqn:He.
    + rewrite (drainBody_error s e' He) in Hd. injection Hd as _ <- <-.
      split; reflexivity.
    + rewrite (drainBody_stream s He) in Hd. cbn in Hd.
      destruct (GoHTTP.isChunked robj); discriminate.
Qed.

(** C4, as far as it holds.  A failure of a dump is not fatal, and the
    caller never gets the error of a dump: [RoundTrip] returns the pair
    that the wrapped transport returns.  But the failure is not
    invisible.  [httputil.DumpRequest] fails only when the draining of
    the body stream fails: the diagnostic line is written, and the
    transport is called with the request whose body stream has been read
    to its end.  When [httputil.DumpResponse] fails after a successful
    transport call, whatever the request dump did, the diagnostic line
    is written after the request-side calls and the response comes back
    with a nil error; the world is the one the transport left when the
    body could be drained (it is [resp.Write] that has failed), and
    otherwise the response is left with its body stream read to its
    end. *)
Theorem dump_failure_consequences (r : TraceLoggingTransport (E := goEnv))
    (req : nat) (w : GoHTTP.World) (log : list (Call (H := goEnv))) robj :
  GoHTTP.requests w !! req = Some robj ->
  fst (RoundTrip (E := goEnv) r req (w, log)) =
    fst (rt r req (fst (beforeTransport (E := goEnv) r req (w, log))))
  /\ (forall dumped e w2,
        GoHTTP.DumpRequest requestHead chunkedWire req
          (negb (Strings.Contains (storedContentType robj) "multipart/form-data")) w
          = ((dumped, Some e), w2) ->
        beforeTransport (E := goEnv) r req (w, log) =
          (w2, log ++ [CallPrintf (i18nT request_error_template [("Error", e)]) []])
        /\ exists s,
             GoHTTP.Body_ robj = GoHTTP.Stream s
             /\ GoHTTP.drainError s = Some e
             /\ w2 = GoHTTP.setRequests
                       (<[req := GoHTTP.setBody
                                   (GoHTTP.Stream (snd (GoHTTP.ReadFrom s))) robj]>
                          (GoHTTP.requests w)) w)
  /\ (forall (resp : nat) (w3 : GoHTTP.World) respObj dumped e w4,
        rt r req (fst (beforeTransport (E := goEnv) r req (w, log)))
          = ((resp, None), w3) ->
        GoHTTP.responses w3 !! resp = Some respObj ->
        GoHTTP.DumpResponse Response_Write resp true w3 = ((dumped, Some e), w4) ->
        RoundTrip (E := goEnv) r req (w, log) =
          ((resp, None),
           (w4, log ++ requestLog r req w ++
                [CallPrintf (i18nT response_error_template [("Error", e)]) []]))
        /\ (GoHTTP.drainable (GoHTTP.RespBody respObj) = true /\ w4 = w3
            \/ exists s,
                 GoHTTP.RespBody respObj = GoHTTP.Stream s
                 /\ GoHTTP.drainError s = Some e
                 /\ w4 = GoHTTP.setResponses
                           (<[resp := GoHTTP.setRespBody
                                        (GoHTTP.Stream (snd (GoHTTP.ReadFrom s)))
                                        (GoHTTP.ContentLength respObj) respObj]>
                              (GoHTTP.responses w3)) w3)).
Proof.
  intros Hr. split; [|split].
  - exact (proj1 (dump_failure_not_fatal (E := goEnv) r req w log)).
  - intros dumped e w2 Hd. split.
    + unfold beforeTransport. cbn [fst snd time_Now GoHTTP.env GoHTTP.Now].
      rewrite (dumpRequest_unfold (E := goEnv)). cbn zeta.
      unfold isMultipart. cbn [Header_Get DumpRequest GoHTTP.env].
      unfold GoHTTP.Header_Get, GoHTTP.Get. rewrite Hr, Hd. reflexivity.
    + destruct (DumpRequest_error req _ w robj dumped e w2 Hr Hd)
        as (_ & s & Hb & He & Hw). now exists s.
  - intros resp w3 respObj dumped e w4 Hrt Hresp Hd. split.
    + rewrite (RoundTrip_unfold (E := goEnv)). cbn zeta. rewrite Hrt.
      rewrite (dumpResponse_unfold (E := goEnv)).
      cbn [fst snd time_Now DumpResponse GoHTTP.env GoHTTP.Now]. rewrite Hd.
      rewrite (beforeTransport_log (E := goEnv)). cbn [snd].
      cbn [T error_Error Printf RecordingPrinter GoHTTP.env].
      now rewrite <- app_assoc.
    + destruct (GoHTTP.drainable (GoHTTP.RespBody respObj)) eqn:Hdr.
      * left. split; [reflexivity|].
        pose proof (DumpResponse_restores Response_Write resp w3 respObj
                      Hresp Hdr) as H.
        rewrite Hd in H. exact H.
      * right. unfold GoHTTP.DumpResponse in Hd. rewrite Hresp in Hd.
        cbn [negb] in Hd.
        destruct (GoHTTP.RespBody respObj) as [| |s] eqn:Hb; try discriminate Hdr.
        destruct (not_drainable_error s Hdr) as [e' He].
        cbn [GoHTTP.isNil] in Hd. rewrite (drainBody_error s e' He) in Hd.
        injection Hd as _ <- <-. exists s. auto.
Qed.

(** C5, as far as it holds.  The request goes to the wrapped transport
    unmodified (the transport is called with the pointer [req] in the
    very world in which [RoundTrip] was called) when the body of the
    request is not displayed or can be drained.  When the transport
    succeeds, [RoundTrip] returns the pointer that the transport
    returned and a nil error; and the response comes back unmodified
    (the world after [RoundTrip] is the very world that the transport
    left) when the body of the response can be drained, whatever became
    of the request. *)
Theorem RoundTrip_success_unmodified {Sink} `{!Printer (H := goEnv) Sink}
    (r : TraceLoggingTransport (E := goEnv)) (req : nat) (w : GoHTTP.World)
    (sink : Sink) :
  (forall robj,
     GoHTTP.requests w !! req = Some robj ->
     Strings.Contains (storedContentType robj) "multipart/form-data"
       || GoHTTP.drainable (GoHTTP.Body_ robj) = true ->
     fst (beforeTransport (E := goEnv) r req (w, sink)) = w)
  /\ (forall (resp : nat) (w3 : GoHTTP.World),
        rt r req (fst (beforeTransport (E := goEnv) r req (w, sink)))
          = ((resp, None), w3) ->
        fst (RoundTrip (E := goEnv) r req (w, sink)) = (resp, None)
        /\ forall respObj,
             GoHTTP.responses w3 !! resp = Some respObj ->
             GoHTTP.drainable (GoHTTP.RespBody respObj) = true ->
             fst (snd (RoundTrip (E := goEnv) r req (w, sink))) = w3).
Proof.
  split.
  - intros robj Hr Hb.
    exact (beforeTransport_restores requestHead chunkedWire Response_Write
             defaultTransport format i18nT headerColor sanitize
             r req w sink robj Hr Hb).
  - intros resp w3 Hrt.
    rewrite (RoundTrip_unfold (E := goEnv)). cbn zeta. rewrite Hrt.
    split; [reflexivity|]. intros respObj Hresp Hd.
    rewrite (dumpResponse_unfold (E := goEnv)).
    cbn [fst snd time_Now DumpResponse GoHTTP.env GoHTTP.Now].
    pose proof (DumpResponse_restores Response_Write resp w3 respObj
                  Hresp Hd) as Hw3.
    destruct (GoHTTP.DumpResponse Response_Write resp true w3) as [[dumped err] w5].
    cbn [fst snd] in *. exact Hw3.
Qed.

(** C2, as far as it holds.  The content type that decides is the first
    value that the header map holds under the key [Content-Type],
    spelled so.  When the dump of an allocated request succeeds,
    [dumpRequest] leaves the world as it is and writes one request trace
    line whose text is the redaction of the dump.  The dump is the head
    of the request and the blank line, followed by the serialized body
    exactly when that content type does not contain
    [multipart/form-data]; when it does, nothing stands after the blank
    line and the marker line is written next.  A trace that the
    redaction leaves as it is ends with the body. *)
Theorem dumpRequest_body_iff_not_multipart (r : TraceLoggingTransport (E := goEnv))
    (req : nat) start (w : GoHTTP.World) (log : list (Call (H := goEnv))) robj :
  GoHTTP.requests w !! req = Some robj ->
  snd (fst (GoHTTP.DumpRequest requestHead chunkedWire req
              (negb (Strings.Contains (storedContentType robj) "multipart/form-data"))
              w)) = None ->
  dumpRequest (E := goEnv) r req start (w, log) =
    (tt,
     (w,
      log ++
      CallPrintf request_format
        [ArgString (headerColor (i18nT "REQUEST:" []));
         ArgString (format start RFC3339);
         ArgString
           (sanitize
              ((requestHead (GoHTTP.setBody GoHTTP.nilBody robj) +:+ GoHTTP.CRLF) +:+
               (if Strings.Contains (storedContentType robj) "multipart/form-data"
                then ""
                else GoHTTP.bodyWire chunkedWire robj)))]
      :: (if Strings.Contains (storedContentType robj) "multipart/form-data"
          then [CallPrintln [ArgString multipart_marker]]
          else [])))
  /\ (Strings.Contains (storedContentType robj) "multipart/form-data" = false ->
      sanitize
        ((requestHead (GoHTTP.setBody GoHTTP.nilBody robj) +:+ GoHTTP.CRLF) +:+
         GoHTTP.bodyWire chunkedWire robj)
      = (requestHead (GoHTTP.setBody GoHTTP.nilBody robj) +:+ GoHTTP.CRLF) +:+
        GoHTTP.bodyWire chunkedWire robj ->
      Strings.Contains
        (sanitize
           ((requestHead (GoHTTP.setBody GoHTTP.nilBody robj) +:+ GoHTTP.CRLF) +:+
            GoHTTP.bodyWire chunkedWire robj))
        (GoHTTP.bodyWire chunkedWire robj) = true).
Proof.
  intros Hr Hok. split.
  - assert (Hb : negb (negb (Strings.Contains (storedContentType robj)
                                "multipart/form-data"))
                 || GoHTTP.drainable (GoHTTP.Body_ robj) = true).
    { destruct (Strings.Contains (storedContentType robj) "multipart/form-data");
        [reflexivity|]. cbn in *.
      destruct (GoHTTP.drainable (GoHTTP.Body_ robj)) eqn:Hd; [reflexivity|].
      destruct (DumpRequest_fails requestHead chunkedWire req w robj Hr Hd)
        as [e He].
      rewrite He in Hok. discriminate. }
    rewrite (dumpRequest_unfold (E := goEnv)). cbn zeta.
    unfold isMultipart. cbn [Header_Get DumpRequest GoHTTP.env].
    unfold GoHTTP.Header_Get, GoHTTP.Get. rewrite Hr.
    rewrite (DumpRequest_ok requestHead chunkedWire req _ w robj Hr Hb).
    cbn [T HeaderColor Sanitize time_Format error_Error Printf Println
         RecordingPrinter GoHTTP.env].
    unfold GoHTTP.requestText.
    destruct (Strings.Contains (storedContentType robj) "multipart/form-data");
      cbn [negb]; rewrite <- ?app_assoc; reflexivity.
  - intros _ ->. apply Contains_append_r.
Qed.

(** C7, as far as it holds.  With the clock of Go and the arithmetic of
    [float64]: when the transport and the response dump succeed, and the
    monotonic reading taken after the transport has returned is not
    before the one taken first thing in [RoundTrip] and at most thirty
    days after it, the response trace carries one elapsed value; the
    verb [%.0f] prints it as an integer without decimals, which is not
    negative and is a whole number of milliseconds nearest to the
    difference of the two readings. *)
Theorem elapsed_nearest_millisecond (r : TraceLoggingTransport (E := goEnv))
    (req : nat) (w : GoHTTP.World) (resp : nat) w3 :
  rt r req (fst (beforeTransport (E := goEnv) (P := RecordingPrinter)
                   r req (w, []))) = ((resp, None), w3) ->
  snd (fst (GoHTTP.DumpResponse Response_Write resp true w3)) = None ->
  (0 <= GoHTTP.mono (fst (GoHTTP.Now w3)) - GoHTTP.mono (fst (GoHTTP.Now w))
     <= GoHTTP.thirtyDays)%Z ->
  exists x : Float64.float64,
    omap elapsedArg (roundTripLog (E := goEnv) r req w)
      = [x : float64 (Env := goEnv)]
    /\ Fmt.f0 x = Fmt.decimal (Float64.roundEven x)
    /\ (0 <= Float64.roundEven x)%Z
    /\ (Z.abs (Float64.roundEven x * 1000000
               - (GoHTTP.mono (fst (GoHTTP.Now w3))
                  - GoHTTP.mono (fst (GoHTTP.Now w))))
        <= 500000)%Z.
Proof.
  intros Hrt Hd Hb. cbn [fst GoHTTP.Now] in *.
  set (d := (GoHTTP.mono (GoHTTP.clock w3) - GoHTTP.mono (GoHTTP.clock w))%Z) in *.
  exists (GoHTTP.mul1000 (GoHTTP.Seconds d)).
  destruct (elapsed_error d Hb) as (Hx0 & _).
  destruct (elapsed_nearest d Hb) as (Hn0 & Hn).
  split; [|split; [now apply f0_nonneg|split; assumption]].
  rewrite (roundTripLog_cases (E := goEnv)).
  destruct (rt r req _) as [[resp' rerr] w3'] eqn:Hgo.
  injection Hrt as -> -> ->.
  cbn [fst snd time_Now DumpResponse GoHTTP.env GoHTTP.Now].
  destruct (GoHTTP.DumpResponse Response_Write resp true w3)
    as [[dumped err] w5]. cbn [fst snd] in Hd. subst err.
  rewrite omap_app, (requestLog_no_elapsed (E := goEnv)).
  cbn [app omap]. cbn.
  assert (Hlt : (GoHTTP.mono (GoHTTP.clock w3) - GoHTTP.mono (GoHTTP.clock w)
                 < 2 ^ 63)%Z)
    by (unfold GoHTTP.thirtyDays in Hb; fold d; lia).
  destruct (Sub_monotonic (GoHTTP.clock w3) (GoHTTP.clock w)
              ltac:(unfold d in Hb; lia) Hlt) as [-> _].
  reflexivity.
Qed.

End GoClaims.

(** ** The further properties at work *)

Section MoreExamples.

(** X4, at the form and the echo transport. *)
Lemma response_trace_elapsed_witness :
  let w := Example.world Example.form in
  let w3 := snd (Example.echo 7 w) in
  let d := @DumpResponse Example.tokenEnv 1 true
             (snd (@time_Now Example.tokenEnv w3)) in
  rt Example.viaEcho 7
    (fst (beforeTransport (E := Example.tokenEnv) (P := RecordingPrinter)
            Example.viaEcho 7 (w, []))) = ((1, None), w3)
  /\ d = ((fst (fst d), None), snd d)
  /\ omap elapsedArg (roundTripLog Example.viaEcho 7 w) =
       [@float64_mul1000 Example.tokenEnv
          (@Duration_Seconds Example.tokenEnv
             (@time_Sub Example.tokenEnv
                (fst (@time_Now Example.tokenEnv w3))
                (fst (@time_Now Example.tokenEnv w))))].
Proof.
  intros w w3 d.
  assert (H1 : rt Example.viaEcho 7
                 (fst (beforeTransport (E := Example.tokenEnv)
                         (P := RecordingPrinter) Example.viaEcho 7 (w, [])))
               = ((1, None), w3)) by (vm_compute; reflexivity).
  assert (H2 : d = ((fst (fst d), None), snd d)) by (vm_compute; reflexivity).
  split; [exact H1|]. split; [exact H2|].
  exact (response_trace_elapsed (E := Example.tokenEnv) Example.viaEcho 7 w
           1 w3 (fst (fst d)) (snd d) H1 H2).
Defined.

(** X6, at the form whose body cannot be closed. *)
Lemma dumpRequest_undrainable_witness :
  let w := Example.world Example.formCloseFails in
  let s := {| GoHTTP.unread := "a=1&b=2"; GoHTTP.readErr := None;
              GoHTTP.closeErr := Some "close: file already closed" |} in
  GoHTTP.requests w !! 7 = Some Example.formCloseFails
  /\ GoHTTP.drainError s = Some "close: file already closed"
  /\ dumpRequest (E := Example.tokenEnv) (P := RecordingPrinter)
       Example.viaEcho 7 (GoHTTP.clock w) (w, []) =
     (tt,
      (GoHTTP.setRequests
         (<[7 := GoHTTP.setBody (GoHTTP.Stream (snd (GoHTTP.ReadFrom s)))
                   Example.formCloseFails]> (GoHTTP.requests w)) w,
       [] ++ [CallPrintf
                (Example.T request_error_template
                   [("Error", "close: file already closed")]) []])).
Proof.
  intros w s.
  assert (H1 : GoHTTP.requests w !! 7 = Some Example.formCloseFails)
    by (vm_compute; reflexivity).
  assert (H2 : Strings.Contains
                 (GoHTTP.Get (GoHTTP.Header Example.formCloseFails) "Content-Type")
                 "multipart/form-data" = false) by (vm_compute; reflexivity).
  split; [exact H1|]. split; [reflexivity|].
  exact (proj1 (dumpRequest_undrainable Example.requestHead
                  Example.chunkedWire Example.Response_Write Example.echo
                  Example.Format Example.T Example.HeaderColor
                  (Trace.Sanitize ["secret123"])
                  Example.viaEcho 7 (GoHTTP.clock w) w []
                  Example.formCloseFails s "close: file already closed"
                  H1 eq_refl H2 eq_refl)).
Defined.

(** X7, at the transport whose response breaks off. *)
Lemma RoundTrip_response_undrainable_witness :
  let w := Example.world Example.form in
  let w3 := snd (Example.truncated 7 w) in
  let s := {| GoHTTP.unread := "partial";
              GoHTTP.readErr := Some "unexpected EOF";
              GoHTTP.closeErr := None |} in
  let respObj :=
    {| GoHTTP.Status := "200 OK"; GoHTTP.StatusCode := 200;
       GoHTTP.RespProtoMajor := 1; GoHTTP.RespProtoMinor := 1;
       GoHTTP.RespHeader := ∅; GoHTTP.RespBody := GoHTTP.Stream s;
       GoHTTP.ContentLength := 100; GoHTTP.RespTransferEncoding := [] |} in
  GoHTTP.responses w3 !! 1 = Some respObj
  /\ RoundTrip (E := Example.tokenEnv) (P := RecordingPrinter)
       Example.viaTruncated 7 (w, []) =
     ((1, None),
      (GoHTTP.setResponses
         (<[1 := GoHTTP.setRespBody (GoHTTP.Stream (snd (GoHTTP.ReadFrom s)))
                   (GoHTTP.ContentLength respObj) respObj]>
            (GoHTTP.responses w3)) w3,
       [] ++ requestLog Example.viaTruncated 7 w ++
       [CallPrintf
          (Example.T response_error_template [("Error", "unexpected EOF")])
          []])).
Proof.
  intros w w3 s respObj.
  assert (H1 : rt Example.viaTruncated 7
                 (fst (beforeTransport (E := Example.tokenEnv)
                         (P := RecordingPrinter) Example.viaTruncated 7 (w, [])))
               = ((1, None), w3)) by (vm_compute; reflexivity).
  assert (H2 : GoHTTP.responses w3 !! 1 = Some respObj)
    by (vm_compute; reflexivity).
  split; [exact H2|].
  exact (RoundTrip_response_undrainable Example.requestHead
           Example.chunkedWire Example.Response_Write Example.echo
           Example.Format Example.T Example.HeaderColor
           (Trace.Sanitize ["secret123"])
           Example.viaTruncated 7 w [] 1 w3 respObj s "unexpected EOF"
           H1 H2 eq_refl eq_refl).
Defined.

(** X8, at the response of the echo transport to the form. *)
Lemma dumpResponse_full_dump_witness :
  let w3 := snd (Example.echo 7 (Example.world Example.form)) in
  let respObj :=
    {| GoHTTP.Status := "200 OK"; GoHTTP.StatusCode := 200;
       GoHTTP.RespProtoMajor := 1; GoHTTP.RespProtoMinor := 1;
       GoHTTP.RespHeader := ∅;
       GoHTTP.RespBody := GoHTTP.Stream (GoHTTP.bytesReader "a=1&b=2");
       GoHTTP.ContentLength := 7; GoHTTP.RespTransferEncoding := [] |} in
  let text := fst (Example.Response_Write respObj) in
  let start := GoHTTP.clock (Example.world Example.form) in
  GoHTTP.responses w3 !! 1 = Some respObj
  /\ Strings.Contains text "a=1&b=2" = true
  /\ dumpResponse (E := Example.tokenEnv) (P := RecordingPrinter)
       Example.viaEcho 1 start (w3, []) =
     (tt,
      (w3,
       [] ++
       [CallPrintf response_format
          [ArgString (Example.HeaderColor (Example.T "RESPONSE:" []));
           ArgString (Example.Format (GoHTTP.clock w3) RFC3339);
           ArgString (Example.HeaderColor (Example.T "Elapsed:" []));
           @ArgFloat64 Example.tokenEnv
             (GoHTTP.mul1000 (GoHTTP.Seconds (GoHTTP.Sub (GoHTTP.clock w3) start)));
           ArgString (Trace.Sanitize ["secret123"] text)]])).
Proof.
  intros w3 respObj text start.
  assert (H1 : GoHTTP.responses w3 !! 1 = Some respObj)
    by (vm_compute; reflexivity).
  assert (H2 : Example.Response_Write
                 (GoHTTP.setRespBody
                    (GoHTTP.writtenBody (GoHTTP.RespBody respObj))
                    (GoHTTP.ContentLength respObj) respObj) = (text, None))
    by (vm_compute; reflexivity).
  split; [exact H1|]. split; [vm_compute; reflexivity|].
  exact (dumpResponse_full_dump Example.requestHead
           Example.chunkedWire Example.Response_Write Example.echo
           Example.Format Example.T Example.HeaderColor
           (Trace.Sanitize ["secret123"])
           Example.viaEcho 1 start w3 [] respObj text H1 eq_refl H2).
Defined.

(** X11, at the response of the echo that declares 99 bytes. *)
Lemma dumpResponse_write_error_witness :
  let w3 := snd (Example.echoWith 1 (fun _ => 99%Z) 7
                   (Example.world Example.form)) in
  let respObj :=
    {| GoHTTP.Status := "200 OK"; GoHTTP.StatusCode := 200;
       GoHTTP.RespProtoMajor := 1; GoHTTP.RespProtoMinor := 1;
       GoHTTP.RespHeader := ∅;
       GoHTTP.RespBody := GoHTTP.Stream (GoHTTP.bytesReader "a=1&b=2");
       GoHTTP.ContentLength := 99; GoHTTP.RespTransferEncoding := [] |} in
  let e := "http: ContentLength with wrong Body length" in
  let start := GoHTTP.clock (Example.world Example.form) in
  GoHTTP.responses w3 !! 1 = Some respObj
  /\ Example.Response_Write respObj = ("", Some e)
  /\ dumpResponse (E := Example.tokenEnv) (P := RecordingPrinter)
       Example.viaBadLength 1 start (w3, []) =
     (tt,
      (w3,
       [] ++ [CallPrintf
                (Example.T response_error_template [("Error", e)]) []])).
Proof.
  intros w3 respObj e start.
  assert (H1 : GoHTTP.responses w3 !! 1 = Some respObj)
    by (vm_compute; reflexivity).
  assert (H2 : Example.Response_Write
                 (GoHTTP.setRespBody
                    (GoHTTP.writtenBody (GoHTTP.RespBody respObj))
                    (GoHTTP.ContentLength respObj) respObj) = ("", Some e))
    by (vm_compute; reflexivity).
  assert (H3 : e <> GoHTTP.errNoBody) by discriminate.
  split; [exact H1|]. split; [vm_compute; reflexivity|].
  exact (dumpResponse_write_error Example.requestHead
           Example.chunkedWire Example.Response_Write Example.echo
           Example.Format Example.T Example.HeaderColor
           (Trace.Sanitize ["secret123"])
           Example.viaBadLength 1 start w3 [] respObj "" e H1 eq_refl H2 H3).
Defined.

(** The arithmetic of [Float64] gives, on each of the sample durations,
    the value that the floating-point unit of the processor gives. *)
Example machine_agrees :
  forallb
    (fun d =>
       match Machine.value (Machine.mul1000 (Machine.Seconds d)) with
       | Some q => Qeq_bool q (GoHTTP.mul1000 (GoHTTP.Seconds d))
       | None => false
       end) Machine.samples = true.
Proof. vm_compute. reflexivity. Qed.

(** A sensitive text that starts with another one is hidden whole;
    sensitive texts that overlap are hidden together, under one
    placeholder; sensitive texts that follow one another get one
    placeholder each. *)
Example matches_hidden_whole :
  Trace.Sanitize ["sec"; "secret123"] "token=secret123&x=1"
    = "token=[PRIVATE DATA HIDDEN]&x=1"
  /\ Trace.Sanitize ["ab"; "bc"] "xabcx" = "x[PRIVATE DATA HIDDEN]x"
  /\ Trace.Sanitize ["ab"; "cd"] "abcd"
     = "[PRIVATE DATA HIDDEN][PRIVATE DATA HIDDEN]".
Proof. vm_compute. repeat split; reflexivity. Qed.

(** The characters of the placeholder are written whatever the policy:
    a sensitive text that is one of its words, or that has a square
    bracket, can be read in the written text although every occurrence
    of it in the dump has been hidden. *)
Example placeholder_characters :
  Trace.Sanitize ["DATA"] "password=DATA" = "password=[PRIVATE DATA HIDDEN]"
  /\ Trace.Sanitize ["S"; "]x"] "Sx" = "[PRIVATE DATA HIDDEN]x".
Proof. vm_compute. split; reflexivity. Qed.

(** C3, at the request with the bearer token, and at the line of its
    dump that carries the token. *)
Lemma dumps_redacted_witness :
  dumpTexts (roundTripLog Example.viaEcho 7 (Example.world Example.authorized))
  = List.map (Trace.Sanitize ["secret123"])
      (rawDumps Example.viaEcho 7 (Example.world Example.authorized))
  /\ exists u' x y v',
       "Authorization: Bearer " = u' +:+ x /\ "; path=/" = y +:+ v'
       /\ Trace.Sanitize ["secret123"] "Authorization: Bearer secret123; path=/"
          = Trace.Sanitize ["secret123"] u' +:+ Trace.privateDataPlaceholder
            +:+ Trace.Sanitize ["secret123"] v'.
Proof.
  destruct (dumps_redacted (E := Example.tokenEnv) ["secret123"]
              Example.viaEcho 7 (Example.world Example.authorized)
              (fun s => eq_refl)) as [Hlog Hraw].
  split; [exact Hlog|].
  destruct (Hraw "Authorization: Bearer secret123; path=/") as (_ & Hocc & _).
  apply (Hocc "Authorization: Bearer " "secret123" "; path=/");
    [reflexivity|now left|discriminate].
Defined.

(** C4, at a call in which both dumps fail: the body of the request
    cannot be closed, and the response declares a length that its body
    does not have.  The caller gets the response and a nil error, the
    log gets the two diagnostic lines; the failed response dump has left
    the world of the transport as it was. *)
Lemma dump_failure_consequences_witness :
  let w := Example.world Example.formCloseFails in
  let e1 := "close: file already closed" in
  let w2 := snd (GoHTTP.DumpRequest Example.requestHead Example.chunkedWire
                   7 true w) in
  let w3 := snd (Example.echoWith 1 (fun _ => 99%Z) 7 w2) in
  let e2 := "http: ContentLength with wrong Body length" in
  let r := Example.viaBadLength in
  GoHTTP.requests w !! 7 = Some Example.formCloseFails
  /\ beforeTransport (E := Example.tokenEnv) (P := RecordingPrinter) r 7 (w, [])
     = (w2, [] ++ [CallPrintf
                     (Example.T request_error_template [("Error", e1)]) []])
  /\ RoundTrip (E := Example.tokenEnv) (P := RecordingPrinter) r 7 (w, [])
     = ((1, None),
        (w3, [] ++ requestLog r 7 w ++
             [CallPrintf
                (Example.T response_error_template [("Error", e2)]) []])).
Proof.
  intros w e1 w2 w3 e2 r.
  assert (H0 : GoHTTP.requests w !! 7 = Some Example.formCloseFails)
    by (vm_compute; reflexivity).
  assert (H1 : GoHTTP.DumpRequest Example.requestHead Example.chunkedWire 7
                 (negb (Strings.Contains
                          (match GoHTTP.Header Example.formCloseFails
                                 !! "Content-Type" with
                           | Some (v :: _) => v
                           | _ => ""
                           end) "multipart/form-data")) w
               = (("", Some e1), w2))
    by (vm_compute; reflexivity).
  assert (H2 : rt r 7 (fst (beforeTransport (E := Example.tokenEnv)
                              (P := RecordingPrinter) r 7 (w, [])))
               = ((1, None), w3))
    by (vm_compute; reflexivity).
  assert (H3 : GoHTTP.responses w3 !! 1 =
               Some {| GoHTTP.Status := "200 OK"; GoHTTP.StatusCode := 200;
                       GoHTTP.RespProtoMajor := 1; GoHTTP.RespProtoMinor := 1;
                       GoHTTP.RespHeader := ∅;
                       GoHTTP.RespBody := GoHTTP.Stream (GoHTTP.bytesReader "");
                       GoHTTP.ContentLength := 99;
                       GoHTTP.RespTransferEncoding := [] |})
    by (vm_compute; reflexivity).
  assert (H4 : GoHTTP.DumpResponse Example.Response_Write 1 true w3
               = (("", Some e2), w3))
    by (vm_compute; reflexivity).
  destruct (dump_failure_consequences Example.requestHead Example.chunkedWire
              Example.Response_Write Example.echo Example.Format Example.T
              Example.HeaderColor (Trace.Sanitize ["secret123"])
              r 7 w [] Example.formCloseFails H0)
    as (_ & Hreq & Hresp).
  split; [exact H0|].
  split; [exact (proj1 (Hreq "" e1 w2 H1))|].
  exact (proj1 (Hresp 1 w3 _ "" e2 w3 H2 H3 H4)).
Defined.

(** C4 fails as it is stated: the failure of a dump reaches the caller.
    The body of the form cannot be closed, and the request dump fails.
    Called directly, the echo transport sends the body and the caller
    reads it back in the response; called through the decorator, it
    sends nothing, and the caller reads an empty response. *)
Lemma request_dump_failure_visible :
  let w := Example.world Example.formCloseFails in
  snd (fst (GoHTTP.DumpRequest Example.requestHead Example.chunkedWire 7 true w))
    = Some "close: file already closed"
  /\ fst (Example.echo 7 w) = (1, None)
  /\ GoHTTP.wire (snd (Example.echo 7 w)) = ["a=1&b=2"]
  /\ (GoHTTP.ReadAll ∘ GoHTTP.RespBody) <$>
       GoHTTP.responses (snd (Example.echo 7 w)) !! 1
     = Some ("a=1&b=2", None)
  /\ fst (RoundTrip (E := Example.tokenEnv) (P := RecordingPrinter)
            Example.viaEcho 7 (w, [])) = (1, None)
  /\ GoHTTP.wire
       (fst (snd (RoundTrip (E := Example.tokenEnv) (P := RecordingPrinter)
                    Example.viaEcho 7 (w, [])))) = [""]
  /\ (GoHTTP.ReadAll ∘ GoHTTP.RespBody) <$>
       GoHTTP.responses
         (fst (snd (RoundTrip (E := Example.tokenEnv) (P := RecordingPrinter)
                      Example.viaEcho 7 (w, [])))) !! 1
     = Some ("", None).
Proof. vm_compute. repeat split; reflexivity. Qed.

(** C5, at the form and the echo transport: the transport is called in
    the world of the caller, and the caller gets the response of the
    transport, a nil error, and the world that the transport left. *)
Lemma RoundTrip_success_unmodified_witness :
  let w := Example.world Example.form in
  let w3 := snd (Example.echo 7 w) in
  fst (beforeTransport (E := Example.tokenEnv) (P := RecordingPrinter)
         Example.viaEcho 7 (w, [])) = w
  /\ fst (RoundTrip (E := Example.tokenEnv) (P := RecordingPrinter)
            Example.viaEcho 7 (w, [])) = (1, None)
  /\ fst (snd (RoundTrip (E := Example.tokenEnv) (P := RecordingPrinter)
                 Example.viaEcho 7 (w, []))) = w3.
Proof.
  intros w w3.
  assert (H1 : GoHTTP.requests w !! 7 = Some Example.form)
    by (vm_compute; reflexivity).
  assert (H2 : Strings.Contains
                 (match GoHTTP.Header Example.form !! "Content-Type" with
                  | Some (v :: _) => v
                  | _ => ""
                  end) "multipart/form-data"
               || GoHTTP.drainable (GoHTTP.Body_ Example.form) = true)
    by (vm_compute; reflexivity).
  assert (H3 : rt Example.viaEcho 7
                 (fst (beforeTransport (E := Example.tokenEnv)
                         (P := RecordingPrinter) Example.viaEcho 7 (w, [])))
               = ((1, None), w3))
    by (vm_compute; reflexivity).
  assert (H4 : GoHTTP.responses w3 !! 1 =
               Some {| GoHTTP.Status := "200 OK"; GoHTTP.StatusCode := 200;
                       GoHTTP.RespProtoMajor := 1; GoHTTP.RespProtoMinor := 1;
                       GoHTTP.RespHeader := ∅;
                       GoHTTP.RespBody := GoHTTP.Stream (GoHTTP.bytesReader "a=1&b=2");
                       GoHTTP.ContentLength := 7;
                       GoHTTP.RespTransferEncoding := [] |})
    by (vm_compute; reflexivity).
  destruct (@RoundTrip_success_unmodified Example.requestHead
              Example.chunkedWire Example.Response_Write Example.echo
              Example.Format Example.T Example.HeaderColor
              (Trace.Sanitize ["secret123"])
              (list (@Call Example.tokenEnv)) (@RecordingPrinter Example.tokenEnv)
              Example.viaEcho 7 w []) as [Hreq Hresp].
  split; [exact (Hreq Example.form H1 H2)|].
  destruct (Hresp 1 w3 H3) as [Hpair Hworld].
  split; [exact Hpair|].
  exact (Hworld _ H4 eq_refl).
Defined.

(** C5 fails as it is stated.  The echo transport succeeds on the form
    whose body cannot be closed, but the request it has been given is
    not the one the caller passed: its body has been read to its end.
    And the transport whose response breaks off succeeds, but the
    response that [RoundTrip] returns is not the one the transport
    returned: of its body, [partial] has been read away. *)
Lemma undrainable_bodies_modified :
  let w := Example.world Example.formCloseFails in
  let w2 := fst (beforeTransport (E := Example.tokenEnv) (P := RecordingPrinter)
                   Example.viaEcho 7 (w, [])) in
  let v := Example.world Example.form in
  fst (rt Example.viaEcho 7 w2) = (1, None)
  /\ GoHTTP.Body_ <$> GoHTTP.requests w !! 7
     = Some (GoHTTP.Stream
               {| GoHTTP.unread := "a=1&b=2"; GoHTTP.readErr := None;
                  GoHTTP.closeErr := Some "close: file already closed" |})
  /\ GoHTTP.Body_ <$> GoHTTP.requests w2 !! 7
     = Some (GoHTTP.Stream
               {| GoHTTP.unread := ""; GoHTTP.readErr := None;
                  GoHTTP.closeErr := Some "close: file already closed" |})
  /\ fst (RoundTrip (E := Example.tokenEnv) (P := RecordingPrinter)
            Example.viaTruncated 7 (v, [])) = (1, None)
  /\ GoHTTP.RespBody <$> GoHTTP.responses (snd (Example.truncated 7 v)) !! 1
     = Some (GoHTTP.Stream
               {| GoHTTP.unread := "partial";
                  GoHTTP.readErr := Some "unexpected EOF";
                  GoHTTP.closeErr := None |})
  /\ GoHTTP.RespBody <$>
       GoHTTP.responses
         (fst (snd (RoundTrip (E := Example.tokenEnv) (P := RecordingPrinter)
                      Example.viaTruncated 7 (v, [])))) !! 1
     = Some (GoHTTP.Stream
               {| GoHTTP.unread := "";
                  GoHTTP.readErr := Some "unexpected EOF";
                  GoHTTP.closeErr := None |}).
Proof. vm_compute. repeat split; reflexivity. Qed.

(** C2, on both sides.  At the form, the dump succeeds, the body stands
    after the blank line and no marker line is written; no sensitive
    text occurs in the dump, and the written trace ends with the body.
    At the multipart upload, nothing stands after the blank line and the
    marker line is written. *)
Lemma dumpRequest_body_iff_not_multipart_witness :
  let head r :=
    Example.requestHead (GoHTTP.setBody GoHTTP.nilBody r) +:+ GoHTTP.CRLF in
  let start := GoHTTP.clock (Example.world Example.form) in
  (Strings.Contains
     (match GoHTTP.Header Example.form !! "Content-Type" with
      | Some (v :: _) => v
      | _ => ""
      end) "multipart/form-data" = false
   /\ GoHTTP.bodyWire Example.chunkedWire Example.form = "a=1&b=2"
   /\ dumpRequest (E := Example.tokenEnv) (P := RecordingPrinter) Example.viaEcho 7
        start (Example.world Example.form, [])
      = (tt,
         (Example.world Example.form,
          [] ++
          [CallPrintf request_format
             [ArgString (Example.HeaderColor (Example.T "REQUEST:" []));
              ArgString (Example.Format start RFC3339);
              ArgString
                (Trace.Sanitize ["secret123"] (head Example.form +:+ "a=1&b=2"))]]))
   /\ Strings.Contains
        (Trace.Sanitize ["secret123"] (head Example.form +:+ "a=1&b=2"))
        "a=1&b=2" = true)
  /\ (Strings.Contains
        (match GoHTTP.Header Example.upload !! "Content-Type" with
         | Some (v :: _) => v
         | _ => ""
         end) "multipart/form-data" = true
      /\ GoHTTP.bodyWire Example.chunkedWire Example.upload = "--xyz--"
      /\ dumpRequest (E := Example.tokenEnv) (P := RecordingPrinter) Example.viaEcho 7
           start (Example.world Example.upload, [])
         = (tt,
            (Example.world Example.upload,
             [] ++
             [CallPrintf request_format
                [ArgString (Example.HeaderColor (Example.T "REQUEST:" []));
                 ArgString (Example.Format start RFC3339);
                 ArgString
                   (Trace.Sanitize ["secret123"] (head Example.upload +:+ ""))];
              CallPrintln [ArgString multipart_marker]]))).
Proof.
  intros head start.
  assert (F1 : GoHTTP.requests (Example.world Example.form) !! 7
               = Some Example.form) by (vm_compute; reflexivity).
  assert (F2 : snd (fst (GoHTTP.DumpRequest Example.requestHead
                           Example.chunkedWire 7
                           (negb (Strings.Contains
                                    (match GoHTTP.Header Example.form
                                           !! "Content-Type" with
                                     | Some (v :: _) => v
                                     | _ => ""
                                     end) "multipart/form-data"))
                           (Example.world Example.form))) = None)
    by (vm_compute; reflexivity).
  assert (F3 : Strings.Contains
                 (match GoHTTP.Header Example.form !! "Content-Type" with
                  | Some (v :: _) => v
                  | _ => ""
                  end) "multipart/form-data" = false)
    by (vm_compute; reflexivity).
  assert (F4 : GoHTTP.bodyWire Example.chunkedWire Example.form = "a=1&b=2")
    by (vm_compute; reflexivity).
  assert (F5 : Trace.Sanitize ["secret123"] (head Example.form +:+ "a=1&b=2")
               = head Example.form +:+ "a=1&b=2")
    by (vm_compute; reflexivity).
  assert (U1 : GoHTTP.requests (Example.world Example.upload) !! 7
               = Some Example.upload) by (vm_compute; reflexivity).
  assert (U2 : snd (fst (GoHTTP.DumpRequest Example.requestHead
                           Example.chunkedWire 7
                           (negb (Strings.Contains
                                    (match GoHTTP.Header Example.upload
                                           !! "Content-Type" with
                                     | Some (v :: _) => v
                                     | _ => ""
                                     end) "multipart/form-data"))
                           (Example.world Example.upload))) = None)
    by (vm_compute; reflexivity).
  assert (U3 : Strings.Contains
                 (match GoHTTP.Header Example.upload !! "Content-Type" with
                  | Some (v :: _) => v
                  | _ => ""
                  end) "multipart/form-data" = true)
    by (vm_compute; reflexivity).
  assert (U4 : GoHTTP.bodyWire Example.chunkedWire Example.upload = "--xyz--")
    by (vm_compute; reflexivity).
  destruct (dumpRequest_body_iff_not_multipart Example.requestHead
              Example.chunkedWire Example.Response_Write Example.echo
              Example.Format Example.T Example.HeaderColor
              (Trace.Sanitize ["secret123"])
              Example.viaEcho 7 start (Example.world Example.form) []
              Example.form F1 F2) as [Fd Fc].
  destruct (dumpRequest_body_iff_not_multipart Example.requestHead
              Example.chunkedWire Example.Response_Write Example.echo
              Example.Format Example.T Example.HeaderColor
              (Trace.Sanitize ["secret123"])
              Example.viaEcho 7 start (Example.world Example.upload) []
              Example.upload U1 U2) as [Ud _].
  rewrite F3, F4 in Fd. rewrite F4 in Fc. specialize (Fc F3 F5).
  rewrite U3 in Ud.
  split; [split; [exact F3|split; [exact F4|split; [exact Fd|exact Fc]]]|].
  split; [exact U3|split; [exact U4|exact Ud]].
Defined.

(** C2 fails as it is stated, in both directions.  An upload whose
    content type has been stored under the key [content-type] is a
    request whose content type contains [multipart/form-data]; it is not
    found under [Content-Type], the body is shown in the trace and no
    marker line is written.  And the body of a form that is not
    multipart is not to be read in the trace when it holds a sensitive
    text: the redaction has replaced it. *)
Lemma request_body_against_content_type :
  let upload := roundTripLog Example.viaEcho 7 (Example.world Example.lowercaseUpload) in
  let form := roundTripLog Example.viaEcho 7 (Example.world Example.tokenForm) in
  GoHTTP.Header Example.lowercaseUpload !! "content-type"
    = Some ["multipart/form-data; boundary=xyz"]
  /\ GoHTTP.bodyWire Example.chunkedWire Example.lowercaseUpload = "--xyz--"
  /\ existsb isMultipartMarker upload = false
  /\ Strings.Contains (hd "" (dumpTexts upload)) "--xyz--" = true
  /\ GoHTTP.Header Example.tokenForm !! "Content-Type"
     = Some ["application/x-www-form-urlencoded"]
  /\ GoHTTP.bodyWire Example.chunkedWire Example.tokenForm = "token=secret123"
  /\ existsb isRequestTrace form = true
  /\ existsb isMultipartMarker form = false
  /\ Strings.Contains (hd "" (dumpTexts form)) "token=secret123" = false
  /\ Strings.Contains (hd "" (dumpTexts form)) "token=[PRIVATE DATA HIDDEN]" = true.
Proof. vm_compute. repeat split; reflexivity. Qed.

(** C7, at the form and the echo transport, which takes 1234567ns: the
    elapsed time is printed as 1. *)
Lemma elapsed_nearest_millisecond_witness :
  let w := Example.world Example.form in
  let w3 := snd (Example.echo 7 w) in
  (GoHTTP.mono (fst (GoHTTP.Now w3)) - GoHTTP.mono (fst (GoHTTP.Now w))
   = 1234567)%Z
  /\ exists x : Float64.float64,
       omap elapsedArg (roundTripLog Example.viaEcho 7 w)
         = [x : @float64 Example.tokenEnv]
       /\ Fmt.f0 x = Fmt.decimal (Float64.roundEven x)
       /\ (0 <= Float64.roundEven x)%Z
       /\ (Z.abs (Float64.roundEven x * 1000000
                  - (GoHTTP.mono (fst (GoHTTP.Now w3))
                     - GoHTTP.mono (fst (GoHTTP.Now w))))
           <= 500000)%Z.
Proof.
  intros w w3.
  assert (H1 : rt Example.viaEcho 7
                 (fst (beforeTransport (E := Example.tokenEnv)
                         (P := RecordingPrinter) Example.viaEcho 7 (w, [])))
               = ((1, None), w3)) by (vm_compute; reflexivity).
  assert (H2 : snd (fst (GoHTTP.DumpResponse Example.Response_Write 1 true w3))
               = None) by (vm_compute; reflexivity).
  assert (H3 : (0 <= GoHTTP.mono (fst (GoHTTP.Now w3))
                     - GoHTTP.mono (fst (GoHTTP.Now w))
                <= GoHTTP.thirtyDays)%Z)
    by (vm_compute; split; discriminate).
  split; [vm_compute; reflexivity|].
  exact (elapsed_nearest_millisecond Example.requestHead
           Example.chunkedWire Example.Response_Write Example.echo
           Example.Format Example.T Example.HeaderColor
           (Trace.Sanitize ["secret123"])
           Example.viaEcho 7 w 1 w3 H1 H2 H3).
Defined.

(** The hypothesis on the clock is needed: for a later reading that
    lies 1234567ns before the earlier one, [%.0f] prints a negative
    number. *)
Example clock_set_back :
  Fmt.f0 (GoHTTP.mul1000
            (GoHTTP.Seconds
               (GoHTTP.Sub {| GoHTTP.wall := 0; GoHTTP.mono := 50 |}
                  {| GoHTTP.wall := 0; GoHTTP.mono := 1234617 |})))
  = "-1".
Proof. vm_compute. reflexivity. Qed.

(** C7 fails as it is stated: a call that takes 8632277188500001ns, a
    little less than a hundred days, has taken 8632277188.500001ms, to
    which the nearest millisecond is 8632277189.  In [float64] the
    elapsed time comes out as 8632277188.5 exactly, and [%.0f] prints
    8632277188. *)
Lemma elapsed_not_nearest_millisecond :
  let w := Example.world Example.form in
  let w3 := snd (Example.answerAfter Example.hundredDays 7 w) in
  fst (RoundTrip (E := Example.tokenEnv) (P := RecordingPrinter)
         Example.viaSlow 7 (w, [])) = (1, None)
  /\ (GoHTTP.mono (fst (GoHTTP.Now w3)) - GoHTTP.mono (fst (GoHTTP.Now w))
      = 8632277188500001)%Z
  /\ Fmt.f0 <$> omap elapsedArg (roundTripLog Example.viaSlow 7 w)
     = ["8632277188"]
  /\ (Z.abs (8632277188 * 1000000 - 8632277188500001) = 500001)%Z
  /\ (Z.abs (8632277189 * 1000000 - 8632277188500001) = 499999)%Z.
Proof. vm_compute. repeat split; reflexivity. Qed.

End MoreExamples.
